(** * dm3_image_utils: DM3 tag trees to and from typed arrays

    A shallow embedding of [dm3_image_utils.py].  The module sits between
    the DM3 container codec ([parse_dm3], not part of these sources) and
    numpy: it turns the [ImageData] entry of a tag dictionary into an
    n-dimensional array and back, and wraps that in [load_image] and
    [save_image].

    Python values are modelled as follows.
    - A numpy array is an element type, the byte order of its dtype, a
      shape and the flat row-major list of its elements; an element is
      an integer value or the IEEE bit pattern(s) of a float or complex
      number, so equality of arrays is bit-for-bit equality.
    - [bytes] are lists of [byte]; the machine is little endian.
    - A tag dictionary is a tree of scalars, [array.array] values,
      [structarray] values, lists and dicts.  A dict is an association
      list in insertion order, looked up by first match.
    - A Python float is its binary64 bit pattern.
    - Exceptions are values of [exn]; a computation that may raise
      returns a [result]. *)

From stdpp Require Import base option list strings gmap.
From coqutil Require Import Byte Word.LittleEndianList.
From Stdlib Require Import ZArith Lia.

Local Open Scope Z_scope.

(** ** Exceptions *)

Inductive exn :=
  | KeyError
  | IndexError
  | TypeError
  | AttributeError
  | ValueError
  | OverflowError
  | StopIteration
  | NameError
  | UnicodeDecodeError
  | FileNotFoundError
  | AssertionError (line : nat).

Inductive result (A : Type) : Type :=
  | Ok (a : A)
  | Raise (e : exn).

Arguments Ok {A} a.
Arguments Raise {A} e.

#[global] Instance result_ret : MRet result := @Ok.
#[global] Instance result_bind : MBind result := λ A B f m,
  match m with
  | Ok a => f a
  | Raise e => Raise e
  end.
#[global] Instance result_fmap : FMap result := λ A B f m,
  match m with
  | Ok a => Ok (f a)
  | Raise e => Raise e
  end.

Definition is_Ok {A} (r : result A) : Prop := ∃ a, r = Ok a.

(** [o or raise e]: the value of a lookup, or the exception it raises. *)
Definition or_raise {A} (o : option A) (e : exn) : result A :=
  match o with
  | Some a => Ok a
  | None => Raise e
  end.

(** [traverse f l]: a [for] loop that collects [f x] for each [x], and
    stops at the first exception. *)
Fixpoint traverse {A B} (f : A → result B) (l : list A) : result (list B) :=
  match l with
  | [] => Ok []
  | x :: l' =>
      match f x with
      | Ok y =>
          match traverse f l' with
          | Ok ys => Ok (y :: ys)
          | Raise e => Raise e
          end
      | Raise e => Raise e
      end
  end.

(** ** numpy element types *)

Inductive dtype :=
  | int8 | uint8 | int16 | uint16 | int32 | uint32 | int64 | uint64
  | float32 | float64 | complex64 | complex128 | bool_.

#[global] Instance dtype_eq_dec : EqDecision dtype.
Proof. solve_decision. Defined.

Inductive kind := KSigned | KUnsigned | KFloat | KComplex.

Definition dtype_kind (t : dtype) : kind :=
  match t with
  | int8 | int16 | int32 | int64 => KSigned
  | uint8 | uint16 | uint32 | uint64 | bool_ => KUnsigned
  | float32 | float64 => KFloat
  | complex64 | complex128 => KComplex
  end.

(** [dtype.itemsize], in bytes. *)
Definition itemsize (t : dtype) : nat :=
  match t with
  | int8 | uint8 | bool_ => 1
  | int16 | uint16 => 2
  | int32 | uint32 | float32 => 4
  | int64 | uint64 | float64 | complex64 => 8
  | complex128 => 16
  end%nat.

(** [dtype.char], the one-character type code (LP64 platform). *)
Definition dtype_char (t : dtype) : string :=
  match t with
  | int8 => "b" | uint8 => "B"
  | int16 => "h" | uint16 => "H"
  | int32 => "i" | uint32 => "I"
  | int64 => "l" | uint64 => "L"
  | float32 => "f" | float64 => "d"
  | complex64 => "F" | complex128 => "D"
  | bool_ => "?"
  end.

(** ** Array elements and their memory image *)

#[global] Instance byte_eq_dec : EqDecision byte := Strings.Byte.byte_eq_dec.

Inductive scalar :=
  | SInt (v : Z)
  | SFloat (bits : Z)
  | SComplex (re im : Z).

#[global] Instance scalar_eq_dec : EqDecision scalar.
Proof. solve_decision. Defined.

Definition in_bits (n : nat) (z : Z) : bool :=
  (0 <=? z) && (z <? 2 ^ (Z.of_nat n * 8)).

(** [scalar_ok t x]: [x] is a value an array of element type [t] can hold. *)
Definition scalar_ok (t : dtype) (x : scalar) : bool :=
  match dtype_kind t, x with
  | KSigned, SInt v =>
      let h := 2 ^ (Z.of_nat (itemsize t) * 8 - 1) in (- h <=? v) && (v <? h)
  | KUnsigned, SInt v =>
      if decide (t = bool_) then (0 <=? v) && (v <? 2)
      else in_bits (itemsize t) v
  | KFloat, SFloat b => in_bits (itemsize t) b
  | KComplex, SComplex re im =>
      in_bits (itemsize t / 2) re && in_bits (itemsize t / 2) im
  | _, _ => false
  end.

(** The bytes of one element in memory; a complex number is its real
    part followed by its imaginary part. *)
Definition scalar_bytes (t : dtype) (x : scalar) : list byte :=
  match x with
  | SInt v => le_split (itemsize t) v
  | SFloat b => le_split (itemsize t) b
  | SComplex re im =>
      le_split (itemsize t / 2) re ++ le_split (itemsize t / 2) im
  end.

(** Reading one element of type [t] from [itemsize t] bytes. *)
Definition scalar_of_bytes (t : dtype) (bs : list byte) : scalar :=
  match dtype_kind t with
  | KSigned =>
      let u := le_combine bs in
      let h := 2 ^ (Z.of_nat (itemsize t) * 8 - 1) in
      SInt (if u <? h then u else u - 2 * h)
  | KUnsigned => SInt (le_combine bs)
  | KFloat => SFloat (le_combine bs)
  | KComplex =>
      let w := (itemsize t / 2)%nat in
      SComplex (le_combine (take w bs)) (le_combine (drop w bs))
  end.

(** ** numpy arrays *)

(** The byte order of a dtype: that of the machine, or the other one
    (as in [np.dtype('>i2')] on a little-endian machine). *)
Inductive byteorder := Native | Swapped.

#[global] Instance byteorder_eq_dec : EqDecision byteorder.
Proof. solve_decision. Defined.

(** [nd_dtype] is [a.dtype.type], the scalar type, which is all this
    module looks at; [nd_byteorder] is the rest of [a.dtype]. *)
Record ndarray := NdArray {
  nd_dtype : dtype;
  nd_byteorder : byteorder;
  nd_shape : list nat;
  nd_data : list scalar
}.

#[global] Instance ndarray_eq_dec : EqDecision ndarray.
Proof. solve_decision. Defined.

(** One element in the memory of an array of byte order [o]: in the
    other byte order every number is stored back to front, a complex
    number as its two parts, each back to front. *)
Definition memory_bytes (o : byteorder) (t : dtype) (x : scalar) : list byte :=
  match o, x with
  | Native, _ => scalar_bytes t x
  | Swapped, SComplex re im =>
      reverse (le_split (itemsize t / 2) re) ++ reverse (le_split (itemsize t / 2) im)
  | Swapped, _ => reverse (scalar_bytes t x)
  end.

Definition shape_size (shape : list nat) : nat := foldr Nat.mul 1%nat shape.

(** The invariant numpy maintains for every array: as many elements as
    the shape says, each one a value of the element type. *)
Definition ndarray_wf (a : ndarray) : Prop :=
  length (nd_data a) = shape_size (nd_shape a) ∧
  Forall (λ x, scalar_ok (nd_dtype a) x = true) (nd_data a).

(** [bytes(a.data)]: the elements as they lie in memory, in row-major
    order and in the byte order of the array. *)
Definition nd_bytes (a : ndarray) : list byte :=
  concat (memory_bytes (nd_byteorder a) (nd_dtype a) <$> nd_data a).

(** [a.flatten()]: a rank-1 copy in row-major order. *)
Definition flatten (a : ndarray) : ndarray :=
  NdArray (nd_dtype a) (nd_byteorder a) [length (nd_data a)] (nd_data a).

(** [np.frombuffer(raw, dtype=t)] for a scalar type [t]: a rank-1
    array in the byte order of the machine over the buffer; the buffer
    must hold a whole number of elements. *)
Definition frombuffer (raw : list byte) (t : dtype) : result ndarray :=
  let sz := itemsize t in
  if decide ((length raw mod sz)%nat = 0%nat) then
    let n := (length raw / sz)%nat in
    Ok (NdArray t Native [n]
          ((λ i, scalar_of_bytes t (take sz (drop (i * sz) raw))) <$> seq 0 n))
  else Raise ValueError.

(** [a.reshape(dims)].  Every extent must be non-negative and the
    extents must multiply to the number of elements, except that one
    extent may be [-1] and is then inferred. *)
Definition reshape (a : ndarray) (dims : list Z) : result ndarray :=
  let n := Z.of_nat (length (nd_data a)) in
  let known := filter (λ d, d ≠ -1) dims in
  let p := foldr Z.mul 1 known in
  if decide (Forall (λ d, 0 ≤ d) dims) then
    if decide (p = n) then
      Ok (NdArray (nd_dtype a) (nd_byteorder a) (Z.to_nat <$> dims) (nd_data a))
    else Raise ValueError
  else if decide (Forall (λ d, 0 ≤ d) known ∧ length dims = S (length known)) then
    if decide (p ≠ 0 ∧ n mod p = 0) then
      Ok (NdArray (nd_dtype a) (nd_byteorder a)
            ((λ d, Z.to_nat (if decide (d = -1) then n / p else d)) <$> dims)
            (nd_data a))
    else Raise ValueError
  else Raise ValueError.

(** ** [array.array] and [structarray] *)

(** The type codes of [array.array] and the element type numpy gives
    each of them (LP64 platform).  The text code ["u"] is left out: no
    array of this module is built with it. *)
Definition array_typecodes : list (string * dtype) :=
  [("b", int8); ("B", uint8); ("h", int16); ("H", uint16);
   ("i", int32); ("I", uint32); ("l", int64); ("L", uint64);
   ("q", int64); ("Q", uint64); ("f", float32); ("d", float64)].

Definition typecode_dtype (c : string) : option dtype :=
  snd <$> (snd <$> list_find (λ p, p.1 = c) array_typecodes).

Record pyarray := PyArray {
  typecode : string;
  items : list scalar
}.

#[global] Instance pyarray_eq_dec : EqDecision pyarray.
Proof. solve_decision. Defined.

(** A binary32 bit pattern that is a signalling NaN: the exponent is
    all ones, the fraction is not zero and its first bit, the quiet
    bit, is clear. *)
Definition signalling32 (b : Z) : bool :=
  (Z.land (Z.shiftr b 23) 255 =? 255)
  && negb (Z.land b (Z.ones 23) =? 0)
  && negb (Z.testbit b 22).

(** A binary32 value taken to binary64 and back: the conversion sets
    the quiet bit of a signalling NaN and keeps its sign and payload;
    every other value comes back as it was. *)
Definition quiet32 (b : Z) : Z :=
  if signalling32 b then Z.lor b (2 ^ 22) else b.

(** One element on its way into [array.array(char, elements)].  The
    constructor takes each element as a Python object: an integer by
    its value, whatever the byte order of the array was; a float32
    element through a Python float, which is a binary64; a float64
    element is a Python float already. *)
Definition array_item (t : dtype) (x : scalar) : scalar :=
  match t, x with
  | float32, SFloat b => SFloat (quiet32 b)
  | _, _ => x
  end.

(** [array.array(a.dtype.char, a.flatten())]: the constructor rejects a
    character that is not a type code.  The elements of a numpy array
    always fit the C type of its own character, so none is rejected. *)
Definition array_of_ndarray (a : ndarray) : result pyarray :=
  let c := dtype_char (nd_dtype a) in
  match typecode_dtype c with
  | Some _ => Ok (PyArray c (array_item (nd_dtype a) <$> nd_data (flatten a)))
  | None => Raise ValueError
  end.

(** [np.asarray(arr, dtype=arr.typecode)]: a rank-1 array over the
    buffer of the items, in the byte order of the machine. *)
Definition asarray (arr : pyarray) : result ndarray :=
  match typecode_dtype (typecode arr) with
  | Some t => Ok (NdArray t Native [length (items arr)] (items arr))
  | None => Raise TypeError
  end.

(** [arr.tostring()]: the machine representation of the items. *)
Definition tostring (arr : pyarray) : list byte :=
  match typecode_dtype (typecode arr) with
  | Some t => concat (scalar_bytes t <$> items arr)
  | None => []
  end.

(** Modelled from the spec: the class [structarray] is declared in
    [parse_dm3], which is not among the sources.  The spec describes it
    as an ordered tuple of field type codes plus a raw byte buffer of
    interleaved records; this module reads and writes its attributes
    [typecodes] and [raw_data]. *)
Record structarray := StructArray {
  typecodes : list string;
  raw_data : list byte
}.

#[global] Instance structarray_eq_dec : EqDecision structarray.
Proof. solve_decision. Defined.

Definition structarray_to_np_map : list (list string * dtype) :=
  [(["d"; "d"], complex128);
   (["f"; "f"], complex64)].

(** [{v: k for k, v in structarray_to_np_map.items()}] *)
Definition np_to_structarray_map : list (dtype * list string) :=
  (λ p, (p.2, p.1)) <$> structarray_to_np_map.

(** ** Tag trees *)

Local Unset Elimination Schemes.

Inductive tag :=
  | TBool (b : bool)
  | TInt (z : Z)
  | TFloat (bits : Z)
  | TStr (s : string)
  | TArray (a : pyarray)
  | TStruct (s : structarray)
  | TList (l : list tag)
  | TDict (d : list (string * tag)).

Local Set Elimination Schemes.

Abbreviation dict := (list (string * tag)).

(** First binding of a key in an association list. *)
Fixpoint assoc {K V} `{EqDecision K} (k : K) (l : list (K * V)) : option V :=
  match l with
  | [] => None
  | (k', v) :: l' => if decide (k' = k) then Some v else assoc k l'
  end.

(** [d[k] = v]: replace the value of a key that is there, otherwise
    append the new key. *)
Fixpoint dict_set {V} (k : string) (v : V) (d : list (string * V)) : list (string * V) :=
  match d with
  | [] => [(k, v)]
  | (k', v') :: d' =>
      if decide (k' = k) then (k', v) :: d' else (k', v') :: dict_set k v d'
  end.

(** [t[k]] for a text key. *)
Definition getitem (t : tag) (k : string) : result tag :=
  match t with
  | TDict d => or_raise (assoc k d) KeyError
  | _ => Raise TypeError
  end.

(** [t.get(k, default)]: only a dict has the method. *)
Definition get_default (t : tag) (k : string) (dflt : tag) : result tag :=
  match t with
  | TDict d => Ok (default dflt (assoc k d))
  | _ => Raise AttributeError
  end.

(** Truth value of a tag, as [if t:] tests it. *)
Definition float_is_zero (bits : Z) : bool := Z.land bits (Z.ones 63) =? 0.

Definition truthy (t : tag) : bool :=
  match t with
  | TBool b => b
  | TInt z => negb (z =? 0)
  | TFloat bits => negb (float_is_zero bits)
  | TStr s => negb (String.eqb s "")
  | TArray a => negb (Nat.eqb (length (items a)) 0)
  | TStruct _ => true
  | TList l => negb (Nat.eqb (length l) 0)
  | TDict d => negb (Nat.eqb (length d) 0)
  end.

(** The integer a binary64 bit pattern denotes, when it denotes one. *)
Definition float_integer_value (bits : Z) : option Z :=
  let neg := Z.testbit bits 63 in
  let e := Z.land (Z.shiftr bits 52) (Z.ones 11) in
  let m := Z.land bits (Z.ones 52) in
  let signed (v : Z) := if neg then - v else v in
  if e =? 2047 then None
  else if e =? 0 then (if m =? 0 then Some 0 else None)
  else
    let full := 2 ^ 52 + m in
    if 1075 <=? e then Some (signed (full * 2 ^ (e - 1075)))
    else if full mod 2 ^ (1075 - e) =? 0 then Some (signed (full / 2 ^ (1075 - e)))
    else None.

(** The integer a tag is equal to under Python's [==] (a bool is an
    int, and a float equals the integer of the same value). *)
Definition int_value (t : tag) : option Z :=
  match t with
  | TBool b => Some (if b then 1 else 0)
  | TInt z => Some z
  | TFloat bits => float_integer_value bits
  | _ => None
  end.

(** [t == n] for an integer [n]. *)
Definition eq_int (t : tag) (n : Z) : bool :=
  match int_value t with
  | Some z => z =? n
  | None => false
  end.

(** ** The table of DM image data types *)

Definition dm_image_dtypes : list (Z * (string * dtype)) :=
  [(1, ("int16", int16));
   (2, ("float32", float32));
   (3, ("Complex64", complex64));
   (6, ("uint8", int8));
   (7, ("int32", int32));
   (9, ("int8", int8));
   (10, ("uint16", uint16));
   (11, ("uint32", uint32));
   (12, ("float64", float64));
   (13, ("Complex128", complex128));
   (14, ("Bool", int8));
   (23, ("RGB", int32))].

(** [dm_image_dtypes[key]]: lists, dicts and arrays are unhashable;
    any other key that equals no code is missing. *)
Definition dm_image_dtypes_getitem (key : tag) : result (string * dtype) :=
  match key with
  | TList _ | TDict _ | TArray _ => Raise TypeError
  | _ =>
      match int_value key with
      | Some z => or_raise (assoc z dm_image_dtypes) KeyError
      | None => Raise KeyError
      end
  end.

(** [next(k for k, v in iter(table.items()) if v[1] == t)]: the first
    code, in the order of the table, whose element type is [t]. *)
Definition first_code (table : list (Z * (string * dtype))) (t : dtype) : result Z :=
  match list_find (λ kv, kv.2.2 = t) table with
  | Some (_, kv) => Ok kv.1
  | None => Raise StopIteration
  end.

Definition reverseLookup (t : dtype) : result Z := first_code dm_image_dtypes t.

(** The element types of the table: the arrays this module can store. *)
Definition supported (t : dtype) : Prop :=
  t ∈ (λ kv, kv.2.2) <$> dm_image_dtypes.

(** ** ImageData dictionary to array *)

(** One extent of a shape: numpy takes an integer, and refuses a
    bool, a float and anything else. *)
Definition extent (t : tag) : result Z :=
  match t with
  | TInt z => Ok z
  | _ => Raise TypeError
  end.

(** An item of an [array.array] as an extent: the items of an array of
    an integer type code are integers, those of ["f"] and ["d"] floats. *)
Definition item_extent (x : scalar) : result Z :=
  match x with
  | SInt v => Ok v
  | _ => Raise TypeError
  end.

(** [t[::-1]] followed by its use as a shape.  A list, an
    [array.array] and a text can be sliced, and numpy takes the items
    of any sequence as extents: those of a list or of an array one by
    one, and a text only when it is empty, since a character is no
    integer.  Nothing else can be sliced. *)
Definition reversed_extents (t : tag) : result (list Z) :=
  match t with
  | TList l => traverse extent (reverse l)
  | TArray a => traverse item_extent (reverse (items a))
  | TStr s => if decide (s = "") then Ok [] else Raise TypeError
  | _ => Raise TypeError
  end.

(** Lines 69 to 77: the flat array behind [imdict['Data']]; [im] stays
    [None] when the value is neither kind of array. *)
Definition flat_data (imdict : tag) : result (option ndarray) :=
  arr ← getitem imdict "Data";
  match arr with
  | TArray a => Some <$> asarray a
  | TStruct s =>
      t ← or_raise (assoc (typecodes s) structarray_to_np_map) KeyError;
      Some <$> frombuffer (raw_data s) t
  | _ => Ok None
  end.

(** The two assertions, named as the specification names them. *)
Definition TypeMismatch : exn := AssertionError 79.
Definition PixelDepthMismatch : exn := AssertionError 80.

Definition imagedatadict_to_ndarray (imdict : tag) : result ndarray :=
  im ← flat_data imdict;
  code ← getitem imdict "DataType";
  entry ← dm_image_dtypes_getitem code;
  im ← or_raise im AttributeError;
  if decide (entry.2 = nd_dtype im) then
    depth ← getitem imdict "PixelDepth";
    if eq_int depth (Z.of_nat (itemsize (nd_dtype im))) then
      dims ← getitem imdict "Dimensions";
      shape ← reversed_extents dims;
      reshape im shape
    else Raise PixelDepthMismatch
  else Raise TypeMismatch.

(** ** Array to ImageData dictionary *)

Definition ndarray_to_imagedatadict (nparr : ndarray) : result dict :=
  dm_type ← reverseLookup (nd_dtype nparr);
  let ret :=
    [("DataType", TInt dm_type);
     ("PixelDepth", TInt (Z.of_nat (itemsize (nd_dtype nparr))));
     ("Dimensions", TList ((λ d, TInt (Z.of_nat d)) <$> reverse (nd_shape nparr)))] in
  match assoc (nd_dtype nparr) np_to_structarray_map with
  | Some types =>
      Ok (ret ++ [("Data", TStruct (StructArray types (nd_bytes nparr)))])
  | None =>
      data ← array_of_ndarray nparr;
      Ok (ret ++ [("Data", TArray data)])
  end.

(** ** Calibrations, loaded images, files *)

(** The calibration objects [save_image] is given: it reads their
    attributes [offset], [scale] and [units]. *)
Record Calibration := {
  offset : Z;
  scale : Z;
  units : string
}.

(** What [load_image] returns: [data, calibrations, intensity, title,
    properties]; a calibration is the triple [(Origin, Scale, Units)]. *)
Record loaded := Loaded {
  ld_data : ndarray;
  ld_calibrations : list (tag * tag * tag);
  ld_intensity : tag * tag * tag;
  ld_title : option tag;
  ld_properties : dict
}.

(** The [file] argument: a path, or a file object open on a path. *)
Inductive file_arg :=
  | Path (p : string)
  | Stream (p : string).

(** Binary64 bit patterns of [0.0] and [1.0]. *)
Definition float_zero : Z := 0.
Definition float_one : Z := 4607182418800017408.

(** [u(x)]: [str(x if x is not None else str())]. *)
Definition u (x : option string) : string := default "" x.

(** [d.setdefault(k, dflt)]: the value of [k], which is set to [dflt]
    first when [k] is missing; returns the value and the dict. *)
Definition setdefault (k : string) (dflt : tag) (d : dict) : tag * dict :=
  match assoc k d with
  | Some v => (v, d)
  | None => (dflt, d ++ [(k, dflt)])
  end.

(** [t[-1]].  On the path where it is used an array cannot occur, as
    [fix_strings] has turned it into text before. *)
Definition index_last (t : tag) : result tag :=
  match t with
  | TList l => or_raise (last l) IndexError
  | TStr s => or_raise ((λ c, TStr (String c "")) <$> last (String.list_ascii_of_string s)) IndexError
  | TDict _ => Raise KeyError
  | _ => Raise TypeError
  end.

(** The values a [for] loop over [t] visits: the elements of a list,
    the keys of a dict, the characters of a text. *)
Definition iterate (t : tag) : result (list tag) :=
  match t with
  | TList l => Ok l
  | TDict d => Ok ((λ kv, TStr kv.1) <$> d)
  | TStr s => Ok ((λ c, TStr (String c "")) <$> String.list_ascii_of_string s)
  | _ => Raise TypeError
  end.

(** ** Paths into a tag tree *)

Inductive step :=
  | Key (k : string)
  | Index (i : nat).

#[global] Instance step_eq_dec : EqDecision step.
Proof. solve_decision. Defined.

(** The node a path of keys and list positions leads to. *)
Fixpoint subtree (p : list step) (t : tag) : option tag :=
  match p, t with
  | [], _ => Some t
  | Key k :: p', TDict d =>
      match assoc k d with
      | Some v => subtree p' v
      | None => None
      end
  | Index i :: p', TList l =>
      match l !! i with
      | Some v => subtree p' v
      | None => None
      end
  | _, _ => None
  end.

(** A path that does not go through a key named ["Data"]. *)
Definition data_free (p : list step) : Prop := Key "Data" ∉ p.

(** The arrays of a tree that are not below a key named ["Data"]. *)
Fixpoint text_arrays (t : tag) : list pyarray :=
  match t with
  | TArray a => [a]
  | TList l => concat (text_arrays <$> l)
  | TDict d =>
      concat ((λ kv : string * tag,
                 if decide (kv.1 = "Data") then [] else text_arrays kv.2) <$> d)
  | _ => []
  end.

(** The value of [ImageTags.ImageScanned.EHT] in an entry, if any. *)
Definition eht (entry : dict) : option tag :=
  match assoc "ImageTags" entry with
  | Some (TDict image_tags) =>
      match assoc "ImageScanned" image_tags with
      | Some (TDict scanned) => assoc "EHT" scanned
      | _ => None
      end
  | _ => None
  end.

(** The [Dimension] list of the image of a document, if it has one. *)
Definition dimension_entries (doc : tag) : option tag :=
  subtree [Key "ImageList"; Index 0; Key "ImageData";
           Key "Calibrations"; Key "Dimension"] doc.

(** A calibration as [load_image] returns it. *)
Definition calibration_triple (c : Calibration) : tag * tag * tag :=
  (TFloat (offset c), TFloat (scale c), TStr (units c)).

(** What an element of an array is after [ndarray_to_imagedatadict]
    and [imagedatadict_to_ndarray]: for the complex types, which go
    through a [structarray], the element read from its bytes in
    memory; for the others the element as [array.array] took it. *)
Definition read_back (o : byteorder) (t : dtype) (x : scalar) : scalar :=
  match assoc t np_to_structarray_map with
  | Some _ => scalar_of_bytes t (memory_bytes o t x)
  | None => array_item t x
  end.

(** The array of these elements, in the byte order of the machine. *)
Definition as_read_back (a : ndarray) : ndarray :=
  NdArray (nd_dtype a) Native (nd_shape a)
    (read_back (nd_byteorder a) (nd_dtype a) <$> nd_data a).

(** An array of float32 with a signalling NaN among its elements. *)
Definition holds_signalling_nan (a : ndarray) : bool :=
  bool_decide (nd_dtype a = float32)
  && existsb (λ x, match x with SFloat b => signalling32 b | _ => false end)
       (nd_data a).

(** ** Sample values *)

(** A codec that stores the tree as it is; a file just created holds
    nothing. *)
Definition tree_read (w : option tag) : result tag := or_raise w ValueError.
Definition tree_write (t : tag) : result (option tag) := Ok (Some t).
Definition tree_partial (t : tag) (old : option tag) : option tag := old.

(** The UTF-16 decoder on little-endian text of ASCII characters; on
    other bytes it gives no answer. *)
Fixpoint ascii_utf16_decode (bs : list byte) : option string :=
  match bs with
  | [] => Some ""
  | lo :: hi :: rest =>
      if decide (hi = Byte.x00 ∧ byte.unsigned lo < 128) then
        String (Ascii.ascii_of_byte lo) <$> ascii_utf16_decode rest
      else None
  | _ => None
  end.

(** [float(n)] where the integer is small enough to be exact. *)
Definition exact_float_of_int (z : Z) : option Z :=
  if z =? 0 then Some 0
  else if Z.abs z <? 2 ^ 53 then
    let k := Z.log2 (Z.abs z) in
    Some ((if z <? 0 then 2 ^ 63 else 0)
          + (1023 + k) * 2 ^ 52 + (Z.abs z * 2 ^ (52 - k) - 2 ^ 52))
  else None.

(** [float(s)] on no text at all. *)
Definition float_of_no_str (s : string) : option Z := None.

(** A 2 by 3 array of int16. *)
Definition sample_array : ndarray :=
  NdArray int16 Native [2; 3]%nat
    [SInt 1; SInt (-2); SInt 3; SInt 32767; SInt (-32768); SInt 0].

(** A complex128 array: 0.5 - 0.25j, a NaN real part with a negative
    zero imaginary part, and zero. *)
Definition sample_complex : ndarray :=
  NdArray complex128 Native [3]%nat
    [SComplex 4602678819172646912 13821547256400052224;
     SComplex 9221120237041090560 9223372036854775808;
     SComplex 0 0].

(** Calibrations: offset 0.0 and scale 0.0125 in nm, offset 1.0 and
    scale 2.0 in s; intensity with offset 0.5 and scale 1.0. *)
Definition sample_calibrations : list Calibration :=
  [{| offset := 0; scale := 4578359381184846234; units := "nm" |};
   {| offset := 4607182418800017408; scale := 4611686018427387904; units := "s" |}].

Definition sample_intensity : Calibration :=
  {| offset := 4602678819172646912; scale := 4607182418800017408; units := "e" |}.

(** Metadata with a high tension of 60000.0. *)
Definition sample_metadata : tag :=
  TDict [("ImageScanned", TDict [("EHT", TFloat 4678479150791524352)])].

(** The text "nm" as the codec delivers it. *)
Definition sample_text : pyarray := PyArray "H" [SInt 110; SInt 109].

(** A tree with the same array under ["Units"], in a list, and under
    ["Data"]. *)
Definition sample_tree : tag :=
  TDict [("Units", TArray sample_text);
         ("Tags", TList [TArray sample_text; TInt 3]);
         ("Data", TArray sample_text)].

(** An ImageData node of one int16 element. *)
Definition image_data_node (v : Z) : tag :=
  TDict [("DataType", TInt 1); ("PixelDepth", TInt 2);
         ("Dimensions", TList [TInt 1]);
         ("Data", TArray (PyArray "h" [SInt v]))].

(** A document of a thumbnail and a full image. *)
Definition thumbnail_entry : tag :=
  TDict [("ImageData", image_data_node 7); ("Name", TArray sample_text)].

Definition full_entry : tag :=
  TDict [("ImageData", image_data_node 9);
         ("ImageTags", TDict [("ImageScanned", TDict [("EHT", TInt 0)])])].

Definition two_image_document : tag :=
  TDict [("ImageList", TList [thumbnail_entry; full_entry]); ("InImageMode", TInt 1)].

(** The thumbnail after [fix_strings]. *)
Definition fixed_thumbnail : tag :=
  TDict [("ImageData", image_data_node 7); ("Name", TStr "nm")].

(** A file system with that document in one file. *)
Definition sample_files : gmap string (option tag) :=
  {["image.dm3" := Some two_image_document]}.

(** An entry whose [EHT] is 0. *)
Definition zero_eht_entry : dict :=
  [("ImageData", image_data_node 9);
   ("ImageTags", TDict [("ImageScanned", TDict [("EHT", TInt 0)])])].

(** What loading [zero_eht_entry] returns. *)
Definition zero_eht_loaded : loaded :=
  Loaded (NdArray int16 Native [1%nat] [SInt 9]) []
    (TFloat float_zero, TFloat float_one, TStr "") None
    [("imported_properties", TDict [("ImageScanned", TDict [("EHT", TInt 0)])])].

(** The properties drawn from [sample_metadata]. *)
Definition sample_properties : dict :=
  [("imported_properties", sample_metadata);
   ("autostem", TDict [("high_tension_v", TFloat 4678479150791524352)]);
   ("extra_high_tension", TFloat 4678479150791524352)].

(** A node that declares float32 with a pixel depth of 8 over an array
    of float64. *)
Definition float64_as_float32_node : tag :=
  TDict [("DataType", TInt 2); ("PixelDepth", TInt 8);
         ("Dimensions", TList [TInt 1]);
         ("Data", TArray (PyArray "d" [SFloat 4607182418800017408]))].

(** A node that declares float32 with a pixel depth of 8 over records
    of two 16-bit integers. *)
Definition short_pairs_node : tag :=
  TDict [("DataType", TInt 2); ("PixelDepth", TInt 8);
         ("Dimensions", TList [TInt 1]);
         ("Data", TStruct (StructArray ["h"; "h"] [Byte.x01; Byte.x00; Byte.x02; Byte.x00]))].

(** A node whose declared type and data agree on int16, with a pixel
    depth of 4. *)
Definition wrong_depth_node : tag :=
  TDict [("DataType", TInt 1); ("PixelDepth", TInt 4);
         ("Dimensions", TList [TInt 1]);
         ("Data", TArray (PyArray "h" [SInt 9]))].

(** The items of [image_data_node 9], and the array they convert to. *)
Definition nine_items : dict :=
  [("DataType", TInt 1); ("PixelDepth", TInt 2);
   ("Dimensions", TList [TInt 1]);
   ("Data", TArray (PyArray "h" [SInt 9]))].

Definition nine_array : ndarray := NdArray int16 Native [1%nat] [SInt 9].

(** [Calibrations] with two axes and a [Brightness] that has a [Scale]
    of 2.0 only. *)
Definition x_axis : dict :=
  [("Origin", TFloat 0); ("Scale", TFloat 4578359381184846234); ("Units", TStr "nm")].

Definition y_axis : dict :=
  [("Origin", TFloat 4607182418800017408); ("Scale", TFloat 4611686018427387904);
   ("Units", TStr "s")].

Definition scale_only : dict := [("Scale", TFloat 4611686018427387904)].

Definition calibrated_items : dict :=
  [("Dimension", TList [TDict x_axis; TDict y_axis]);
   ("Brightness", TDict scale_only)].

(** An entry of one int16 element in a 1 by 1 image with these
    calibrations, and what loading it returns. *)
Definition calibrated_data : dict :=
  [("DataType", TInt 1); ("PixelDepth", TInt 2);
   ("Dimensions", TList [TInt 1; TInt 1]);
   ("Data", TArray (PyArray "h" [SInt 9]));
   ("Calibrations", TDict calibrated_items)].

Definition calibrated_entry : dict := [("ImageData", TDict calibrated_data)].

Definition calibrated_loaded : loaded :=
  Loaded (NdArray int16 Native [1; 1]%nat [SInt 9])
    [(TFloat 4607182418800017408, TFloat 4611686018427387904, TStr "s");
     (TFloat 0, TFloat 4578359381184846234, TStr "nm")]
    (TFloat float_zero, TFloat 4611686018427387904, TStr "") None [].

(** The same entry with a second axis that has no [Units]. *)
Definition unitless_axis : dict :=
  [("Origin", TFloat 4607182418800017408); ("Scale", TFloat 4611686018427387904)].

Definition incomplete_items : dict :=
  [("Dimension", TList [TDict x_axis; TDict unitless_axis])].

Definition incomplete_data : dict :=
  [("DataType", TInt 1); ("PixelDepth", TInt 2);
   ("Dimensions", TList [TInt 1; TInt 1]);
   ("Data", TArray (PyArray "h" [SInt 9]));
   ("Calibrations", TDict incomplete_items)].

Definition incomplete_entry : dict := [("ImageData", TDict incomplete_data)].

(** Documents without an image. *)
Definition no_image_list : dict := [("InImageMode", TInt 1)].
Definition empty_image_list : dict := [("ImageList", TList []); ("InImageMode", TInt 1)].

(** A node with the code 8, which the table does not hold. *)
Definition unknown_code_node : tag :=
  TDict [("DataType", TInt 8); ("PixelDepth", TInt 2);
         ("Dimensions", TList [TInt 1]);
         ("Data", TArray (PyArray "h" [SInt 9]))].

(** A node of one element that declares two. *)
Definition wrong_shape_items : dict :=
  [("DataType", TInt 1); ("PixelDepth", TInt 2);
   ("Dimensions", TList [TInt 2]);
   ("Data", TArray (PyArray "h" [SInt 9]))].

(** A node of one signed byte, declared as Bool. *)
Definition bool_items : dict :=
  [("DataType", TInt 14); ("PixelDepth", TInt 1);
   ("Dimensions", TList [TInt 1]);
   ("Data", TArray (PyArray "b" [SInt 1]))].

(** A complex64 node of the one element 1.0 + 0.0j. *)
Definition unit_complex_data : structarray :=
  StructArray ["f"; "f"]
    [Byte.x00; Byte.x00; Byte.x80; Byte.x3f; Byte.x00; Byte.x00; Byte.x00; Byte.x00].

Definition unit_complex_node : tag :=
  TDict [("DataType", TInt 3); ("PixelDepth", TInt 8);
         ("Dimensions", TList [TInt 1]);
         ("Data", TStruct unit_complex_data)].

Definition unit_complex_array : ndarray :=
  NdArray complex64 Native [1%nat] [SComplex 1065353216 0].

(** [sample_tree] after [fix_strings]. *)
Definition fixed_sample_tree : tag :=
  TDict [("Units", TStr "nm");
         ("Tags", TList [TStr "nm"; TInt 3]);
         ("Data", TArray sample_text)].

(** One byte, which is no UTF-16 text, in a list. *)
Definition odd_text : pyarray := PyArray "b" [SInt 1].
Definition odd_tree : tag := TList [TInt 3; TArray odd_text].



(** An array of int64, an element type the table does not hold. *)
Definition long_array : ndarray := NdArray int64 Native [1%nat] [SInt 5].

(** An ImageData node whose [Data] is a text. *)
Definition text_data_items : dict :=
  [("DataType", TInt 1); ("PixelDepth", TInt 2);
   ("Dimensions", TList [TInt 1]);
   ("Data", TStr "nm")].

(** The items of [thumbnail_entry] and of [fixed_thumbnail], and what
    loading the latter returns. *)
Definition thumbnail_items : dict :=
  [("ImageData", image_data_node 7); ("Name", TArray sample_text)].

Definition fixed_thumbnail_items : dict :=
  [("ImageData", image_data_node 7); ("Name", TStr "nm")].

Definition thumbnail_loaded : loaded :=
  Loaded (NdArray int16 Native [1%nat] [SInt 7]) []
    (TFloat float_zero, TFloat float_one, TStr "") (Some (TStr "nm")) [].

(** A float32 array of one signalling NaN, 0x7F800001, and the array
    of the quiet NaN 0x7FC00001. *)
Definition signalling_array : ndarray :=
  NdArray float32 Native [1%nat] [SFloat 2139095041].

Definition quiet_array : ndarray :=
  NdArray float32 Native [1%nat] [SFloat 2143289345].

(** [sample_array] in the other byte order, as [sample_array.astype('>i2')]. *)
Definition swapped_array : ndarray :=
  NdArray int16 Swapped [2; 3]%nat
    [SInt 1; SInt (-2); SInt 3; SInt 32767; SInt (-32768); SInt 0].

(** The complex128 array of 1.0 + 0.0j in the other byte order, its
    buffer, and the array that buffer is read as: the real part has
    become 0x000000000000F03F. *)
Definition swapped_complex : ndarray :=
  NdArray complex128 Swapped [1%nat] [SComplex 4607182418800017408 0].

Definition swapped_complex_bytes : list byte :=
  [Byte.x3f; Byte.xf0; Byte.x00; Byte.x00; Byte.x00; Byte.x00; Byte.x00; Byte.x00;
   Byte.x00; Byte.x00; Byte.x00; Byte.x00; Byte.x00; Byte.x00; Byte.x00; Byte.x00].

Definition swapped_complex_read : ndarray :=
  NdArray complex128 Native [1%nat] [SComplex 61503 0].

(** One calibration, for an array of rank 1. *)
Definition one_calibration : list Calibration :=
  [{| offset := 0; scale := 4578359381184846234; units := "nm" |}].



Section Runtime.

#[local] Set Default Proof Using "Type".

(** Library functions the module calls and this development leaves
    open: [bytes.decode("utf-16")], which raises [UnicodeDecodeError]
    on bytes that are no UTF-16 text; [float(n)] for an integer, which
    raises [OverflowError]; [float(s)] for a text, which raises
    [ValueError]. *)
Variable utf16_decode : list byte → option string.
Variable float_of_int : Z → option Z.
Variable float_of_str : string → option Z.

(** Modelled from the spec: the container codec [parse_dm_header] of
    [parse_dm3], which is not among the sources.  The spec gives its
    contract as [decode(stream) -> TagNode] and
    [encode(stream, TagNode) -> ()], both of which may fail.  [wire]
    is the content of a file and [empty_wire] that of a file just
    created. *)
Variable wire : Type.
Variable empty_wire : wire.
Variable parse_dm_header_read : wire → result tag.
Variable parse_dm_header_write : tag → result wire.

(** A write that raises may have written part of the document first:
    [parse_dm_header_partial ret old] is what the stream holds after a
    failed write of [ret], where [old] is what it held before. *)
Variable parse_dm_header_partial : tag → wire → wire.

(** [float(t)] *)
Definition to_float (t : tag) : result Z :=
  match t with
  | TBool b => Ok (if b then float_one else float_zero)
  | TInt z => or_raise (float_of_int z) OverflowError
  | TFloat bits => Ok bits
  | TStr s => or_raise (float_of_str s) ValueError
  | _ => Raise TypeError
  end.

(** *** fix_strings *)

(** The keys of a Python dict are distinct, so assigning [r[k]] for
    each item in turn builds the items in the same order. *)
Fixpoint fix_strings (d : tag) : result tag :=
  match d with
  | TDict items =>
      let fix go (items : dict) : result dict :=
        match items with
        | [] => Ok []
        | (k, v) :: rest =>
            match (if decide (k ≠ "Data") then fix_strings v else Ok v) with
            | Ok v' =>
                match go rest with
                | Ok r => Ok ((k, v') :: r)
                | Raise e => Raise e
                end
            | Raise e => Raise e
            end
        end in
      match go items with
      | Ok r => Ok (TDict r)
      | Raise e => Raise e
      end
  | TList l =>
      match traverse fix_strings l with
      | Ok l' => Ok (TList l')
      | Raise e => Raise e
      end
  | TArray a =>
      match utf16_decode (tostring a) with
      | Some s => Ok (TStr s)
      | None => Raise UnicodeDecodeError
      end
  | _ => Ok d
  end.

(** The loop over the items of a dict, by itself. *)
Fixpoint fix_items (items : dict) : result dict :=
  match items with
  | [] => Ok []
  | (k, v) :: rest =>
      match (if decide (k ≠ "Data") then fix_strings v else Ok v) with
      | Ok v' =>
          match fix_items rest with
          | Ok r => Ok ((k, v') :: r)
          | Raise e => Raise e
          end
      | Raise e => Raise e
      end
  end.

(** *** load_image *)

(** One iteration of the loop over [Dimension]. *)
Definition dimension_triple (dimension : tag) : result (tag * tag * tag) :=
  o ← getitem dimension "Origin";
  s ← getitem dimension "Scale";
  un ← getitem dimension "Units";
  Ok (o, s, un).

(** Lines 176 to 180, for the value of [ImageTags]. *)
Definition imported_properties (image_tags_value : tag) : result dict :=
  let properties := [("imported_properties", image_tags_value)] in
  scanned ← get_default image_tags_value "ImageScanned" (TDict []);
  voltage ← get_default scanned "EHT" (TDict []);
  if truthy voltage then
    v ← to_float voltage;
    Ok (properties ++
        [("autostem", TDict [("high_tension_v", TFloat v)]);
         ("extra_high_tension", TFloat v)])
  else Ok properties.

(** Lines 173 to 180: the properties of the selected entry. *)
Definition image_properties (image_tags : dict) : result dict :=
  match assoc "ImageTags" image_tags with
  | Some image_tags_value => imported_properties image_tags_value
  | None => Ok []
  end.

(** Lines 164 to 181, for the entry [image_tags] that was selected.
    Only a dict can be subscripted with ["ImageData"]. *)
Definition load_entry (image_tags : tag) : result loaded :=
  match image_tags with
  | TDict entry =>
      image_data ← or_raise (assoc "ImageData" entry) KeyError;
      data ← imagedatadict_to_ndarray image_data;
      calibration_tags ← get_default image_data "Calibrations" (TDict []);
      dimensions ← get_default calibration_tags "Dimension" (TList []);
      dimension_list ← iterate dimensions;
      calibrations ← traverse dimension_triple dimension_list;
      brightness ← get_default calibration_tags "Brightness" (TDict []);
      b_origin ← get_default brightness "Origin" (TFloat float_zero);
      b_scale ← get_default brightness "Scale" (TFloat float_one);
      b_units ← get_default brightness "Units" (TStr "");
      let title := assoc "Name" entry in
      properties ← image_properties entry;
      Ok (Loaded data (reverse calibrations) (b_origin, b_scale, b_units)
            title properties)
  | _ => Raise TypeError
  end.

(** Lines 163 to 181: selection of the entry and extraction. *)
Definition load_fixed (dmtag : tag) : result loaded :=
  image_list ← getitem dmtag "ImageList";
  image_tags ← index_last image_list;
  load_entry image_tags.

(** Lines 161 to 181: from the parsed tag dictionary to the result. *)
Definition load_tags (dmtag : tag) : result loaded :=
  dmtag ← fix_strings dmtag;
  load_fixed dmtag.

Abbreviation files := (gmap string wire).

(** [load_image(file)]: a path is opened for reading and the function
    calls itself on the file object. *)
Definition load_image (file : file_arg) (fs : files) : result loaded :=
  match file with
  | Path p | Stream p =>
      content ← or_raise (fs !! p) FileNotFoundError;
      dmtag ← parse_dm_header_read content;
      load_tags dmtag
  end.

(** *** save_image *)

(** One [dimension] dict of the loop at lines 201 to 206. *)
Definition dimension_entry (c : Calibration) : tag :=
  TDict [("Origin", TFloat (offset c));
         ("Scale", TFloat (scale c));
         ("Units", TStr (u (Some (units c))))].

(** Lines 199 to 206.  [data_dict] is the very object stored in the
    document, so what is added here is added to the document. *)
Definition add_dimensions (cals : list Calibration) (rank : nat)
    (data_dict : dict) : result dict :=
  if negb (Nat.eqb (length cals) 0) && Nat.eqb (length cals) rank then
    let '(calibrations, data_dict) := setdefault "Calibrations" (TDict []) data_dict in
    match calibrations with
    | TDict c =>
        let '(dimension_list, c) := setdefault "Dimension" (TList []) c in
        match dimension_list with
        | TList l =>
            let l := l ++ (dimension_entry <$> reverse cals) in
            Ok (dict_set "Calibrations" (TDict (dict_set "Dimension" (TList l) c)) data_dict)
        | _ => Raise AttributeError
        end
    | _ => Raise AttributeError
    end
  else Ok data_dict.

(** Lines 207 to 211.  A calibration object is true; [None] is not. *)
Definition add_brightness (intensity : option Calibration)
    (data_dict : dict) : result dict :=
  match intensity with
  | Some ic =>
      let '(calibrations, data_dict) := setdefault "Calibrations" (TDict []) data_dict in
      match calibrations with
      | TDict c =>
          let '(brightness, c) := setdefault "Brightness" (TDict []) c in
          match brightness with
          | TDict b =>
              let b := dict_set "Origin" (TFloat (offset ic)) b in
              let b := dict_set "Scale" (TFloat (scale ic)) b in
              let b := dict_set "Units" (TStr (units ic)) b in
              Ok (dict_set "Calibrations" (TDict (dict_set "Brightness" (TDict b) c)) data_dict)
          | _ => Raise TypeError
          end
      | _ => Raise AttributeError
      end
  | None => Ok data_dict
  end.

(** Lines 197 to 221: the document around the image data. *)
Definition document (data_dict : dict) (metadata : tag) : tag :=
  TDict
    [("ImageList",
       TList [TDict [("ImageData", TDict data_dict); ("ImageTags", metadata)]]);
     ("ImageSourceList",
       TList [TDict [("ClassName", TStr "ImageSource:Simple");
                     ("Id", TList [TInt 0]);
                     ("ImageRef", TInt 0)]]);
     ("DocumentObjectList",
       TList [TDict [("ImageSource", TInt 0); ("AnnotationType", TInt 20)]]);
     ("Image Behavior", TDict [("ViewDisplayID", TInt 8)]);
     ("InImageMode", TInt 1)].

(** Lines 196 to 221: the document handed to the codec. *)
Definition save_tags (data : ndarray) (dimensional_calibrations : list Calibration)
    (intensity_calibration : option Calibration) (metadata : tag) : result tag :=
  data_dict ← ndarray_to_imagedatadict data;
  data_dict ← add_dimensions dimensional_calibrations (length (nd_shape data)) data_dict;
  data_dict ← add_brightness intensity_calibration data_dict;
  Ok (document data_dict metadata).

(** [save_image(data, dimensional_calibrations, intensity_calibration,
    metadata, file)] returns the outcome and the files afterwards.
    For a path, line 190 creates the file, which is taken to be
    possible here, and line 191 evaluates [save_image(n, f)]: the name
    [n] is bound nowhere, so the call raises before anything is
    written, and the [with] block leaves the empty file behind.  For
    a file object, an exception before line 222 leaves the stream as
    it was; one of the codec leaves it with what had been written. *)
Definition save_image (data : ndarray) (dimensional_calibrations : list Calibration)
    (intensity_calibration : option Calibration) (metadata : tag)
    (file : file_arg) (fs : files) : result unit * files :=
  match file with
  | Path p => (Raise NameError, <[p := empty_wire]> fs)
  | Stream p =>
      match save_tags data dimensional_calibrations intensity_calibration metadata with
      | Ok ret =>
          match parse_dm_header_write ret with
          | Ok w => (Ok (), <[p := w]> fs)
          | Raise e => (Raise e, alter (parse_dm_header_partial ret) p fs)
          end
      | Raise e => (Raise e, fs)
      end
  end.

(** What [fix_strings] makes of one node: text of an array, a list of
    the same length, a dict of the same keys, the node itself
    otherwise. *)
Definition node_fixed (x y : tag) : Prop :=
  match x with
  | TArray a => ∃ s, utf16_decode (tostring a) = Some s ∧ y = TStr s
  | TList l => ∃ l', y = TList l' ∧ length l' = length l
  | TDict d => ∃ d', y = TDict d' ∧ d'.*1 = d.*1
  | _ => y = x
  end.

(** The [Brightness] dict of lines 208 to 211. *)
Definition brightness_entry (c : Calibration) : tag :=
  TDict [("Origin", TFloat (offset c));
         ("Scale", TFloat (scale c));
         ("Units", TStr (units c))].

(** The items of the [Calibrations] dict [save_image] builds. *)
Definition calibration_items (cals : list Calibration) (rank : nat)
    (intensity : option Calibration) : dict :=
  (if negb (Nat.eqb (length cals) 0) && Nat.eqb (length cals) rank
   then [("Dimension", TList (dimension_entry <$> reverse cals))] else [])
  ++ match intensity with
     | Some ic => [("Brightness", brightness_entry ic)]
     | None => []
     end.

(** The items [ndarray_to_imagedatadict] returns. *)
Definition imagedata_items (a : ndarray) (code : Z) (data : tag) : dict :=
  [("DataType", TInt code);
   ("PixelDepth", TInt (Z.of_nat (itemsize (nd_dtype a))));
   ("Dimensions", TList ((λ d, TInt (Z.of_nat d)) <$> reverse (nd_shape a)));
   ("Data", data)].

(** * Properties *)

(** ** Bytes of array elements *)

Lemma le_combine_split_small (n : nat) (z : Z) :
  in_bits n z = true → le_combine (le_split n z) = z.
Proof.
  unfold in_bits. intros [H1 H2]%andb_prop.
  apply Z.leb_le in H1. apply Z.ltb_lt in H2.
  rewrite le_combine_split. apply Z.mod_small. lia.
Qed.

Lemma scalar_bytes_length (t : dtype) (x : scalar) :
  scalar_ok t x = true → length (scalar_bytes t x) = itemsize t.
Proof.
  destruct t, x; simpl; try discriminate; intros _;
    rewrite ?length_app, ?length_le_split; reflexivity.
Qed.

Lemma signed_wrap (h v : Z) :
  0 < h → - h ≤ v < h →
  (if v mod (2 * h) <? h then v mod (2 * h) else v mod (2 * h) - 2 * h) = v.
Proof.
  intros Hh Hv.
  pose proof (Z.mod_pos_bound v (2 * h) ltac:(lia)) as Hb.
  pose proof (Z.div_mod v (2 * h) ltac:(lia)) as Hd.
  assert (v `div` (2 * h) = 0 ∨ v `div` (2 * h) = -1) as [Hq|Hq] by nia;
    rewrite Hq in Hd; destruct (Z.ltb_spec (v mod (2 * h)) h); lia.
Qed.

Lemma scalar_of_bytes_bytes (t : dtype) (x : scalar) :
  scalar_ok t x = true → scalar_of_bytes t (scalar_bytes t x) = x.
Proof.
  unfold scalar_ok, scalar_of_bytes, scalar_bytes.
  destruct (dtype_kind t) eqn:Hk, x; try discriminate.
  - intros [H1 H2]%andb_prop. apply Z.leb_le in H1. apply Z.ltb_lt in H2.
    rewrite le_combine_split. f_equal.
    set (h := 2 ^ (Z.of_nat (itemsize t) * 8 - 1)) in *.
    assert (0 < h) by (apply Z.pow_pos_nonneg; destruct t; simpl; lia).
    replace (2 ^ (Z.of_nat (itemsize t) * 8)) with (2 * h).
    + apply signed_wrap; lia.
    + subst h. rewrite <- Z.pow_succ_r by (destruct t; simpl; lia).
      f_equal. lia.
  - intros H. f_equal. apply le_combine_split_small.
    destruct (decide (t = bool_)) as [->|]; [|done].
    unfold in_bits. simpl. apply andb_prop in H as [H1 H2].
    apply Z.leb_le in H1. apply Z.ltb_lt in H2.
    apply andb_true_intro. split; [apply Z.leb_le | apply Z.ltb_lt]; lia.
  - intros H. f_equal. by apply le_combine_split_small.
  - intros [H1 H2]%andb_prop. cbv zeta.
    rewrite take_app_length', drop_app_length' by (by rewrite length_le_split).
    f_equal; by apply le_combine_split_small.
Qed.

(** Cutting a buffer that was laid out element by element gives the
    elements back. *)
Lemma chunks_concat {A B} (sz : nat) (f : list byte → B) (g : A → list byte)
    (l : list A) :
  Forall (λ x, length (g x) = sz) l →
  (λ i, f (take sz (drop (i * sz) (concat (g <$> l))))) <$> seq 0 (length l)
  = (λ x, f (g x)) <$> l.
Proof.
  induction 1 as [|x l Hx _ IH]; [done|].
  rewrite fmap_cons, length_cons. cbn [seq fmap list_fmap concat].
  change (drop (0 * sz) ?k) with k.
  rewrite take_app_length' by done. f_equal.
  rewrite <- IH, <- fmap_S_seq, <- list_fmap_compose.
  apply list_fmap_ext. intros _ i _. unfold compose.
  change (S i * sz)%nat with (sz + i * sz)%nat.
  by rewrite drop_app_add' by done.
Qed.

Lemma length_concat_bytes {A} (sz : nat) (g : A → list byte) (l : list A) :
  Forall (λ x, length (g x) = sz) l →
  length (concat (g <$> l)) = (length l * sz)%nat.
Proof.
  induction 1 as [|x l Hx _ IH]; [done|].
  rewrite fmap_cons. cbn [concat]. by rewrite length_app, IH, Hx.
Qed.

Lemma memory_bytes_length (o : byteorder) (t : dtype) (x : scalar) :
  scalar_ok t x = true → length (memory_bytes o t x) = itemsize t.
Proof.
  destruct o; [apply scalar_bytes_length|].
  destruct t, x; simpl; try discriminate; intros _;
    rewrite ?length_app, ?length_reverse, ?length_le_split; reflexivity.
Qed.

(** [np.frombuffer] reads the elements of [bytes(a.data)] one by one,
    in the byte order of the machine. *)
Lemma frombuffer_memory (a : ndarray) :
  Forall (λ x, scalar_ok (nd_dtype a) x = true) (nd_data a) →
  frombuffer (nd_bytes a) (nd_dtype a)
  = Ok (NdArray (nd_dtype a) Native [length (nd_data a)]
          ((λ x, scalar_of_bytes (nd_dtype a)
                   (memory_bytes (nd_byteorder a) (nd_dtype a) x)) <$> nd_data a)).
Proof.
  intros Hok. unfold frombuffer, nd_bytes.
  assert (Forall (λ x, length (memory_bytes (nd_byteorder a) (nd_dtype a) x)
                       = itemsize (nd_dtype a)) (nd_data a)) as Hlen.
  { eapply Forall_impl; [exact Hok|]. intros x. apply memory_bytes_length. }
  assert (itemsize (nd_dtype a) ≠ 0%nat) as Hsz by (by destruct (nd_dtype a)).
  rewrite (length_concat_bytes _ _ _ Hlen).
  rewrite Nat.Div0.mod_mul, Nat.div_mul by done.
  rewrite decide_True by done. do 2 f_equal.
  by rewrite (chunks_concat _ _ _ _ Hlen).
Qed.

(** In the byte order of the machine, [np.frombuffer] undoes
    [bytes(a.data)]. *)
Lemma frombuffer_nd_bytes (a : ndarray) :
  nd_byteorder a = Native →
  Forall (λ x, scalar_ok (nd_dtype a) x = true) (nd_data a) →
  frombuffer (nd_bytes a) (nd_dtype a) = Ok (flatten a).
Proof.
  intros Ho Hok. rewrite (frombuffer_memory a Hok). unfold flatten.
  rewrite Ho. do 2 f_equal.
  rewrite <- (list_fmap_id (nd_data a)) at 2.
  apply Forall_fmap_ext_1. eapply Forall_impl; [exact Hok|].
  intros x. apply scalar_of_bytes_bytes.
Qed.

(** ** Shapes *)

Lemma traverse_fmap_Ok {A B C} (f : B → result C) (g : A → B) (h : A → C)
    (l : list A) :
  (∀ x, f (g x) = Ok (h x)) → traverse f (g <$> l) = Ok (h <$> l).
Proof.
  intros Hf. induction l as [|x l IH]; [done|].
  rewrite !fmap_cons. cbn [traverse]. by rewrite Hf, IH.
Qed.

Lemma reversed_extents_shape (shape : list nat) :
  reversed_extents (TList ((λ d, TInt (Z.of_nat d)) <$> reverse shape))
  = Ok (Z.of_nat <$> shape).
Proof.
  unfold reversed_extents.
  rewrite <- fmap_reverse, reverse_involutive.
  by apply traverse_fmap_Ok.
Qed.

Lemma shape_size_product (shape : list nat) :
  foldr Z.mul 1 (Z.of_nat <$> shape) = Z.of_nat (shape_size shape).
Proof.
  unfold shape_size. induction shape as [|d shape IH]; [done|].
  rewrite fmap_cons. cbn [foldr]. by rewrite IH, Nat2Z.inj_mul.
Qed.

Lemma filter_known (dims : list Z) :
  Forall (λ d, 0 ≤ d) dims → filter (λ d, d ≠ -1) dims = dims.
Proof.
  induction 1 as [|d l Hd _ IH]; [done|].
  rewrite filter_cons_True by lia. by f_equal.
Qed.

Lemma reshape_flat (t : dtype) (o : byteorder) (data : list scalar)
    (old shape : list nat) :
  length data = shape_size shape →
  reshape (NdArray t o old data) (Z.of_nat <$> shape)
  = Ok (NdArray t o shape data).
Proof.
  intros Hlen. unfold reshape. cbn [nd_data nd_dtype nd_byteorder].
  assert (Forall (λ d, 0 ≤ d) (Z.of_nat <$> shape)) as Hpos.
  { apply Forall_fmap, Forall_true. intros d. simpl. lia. }
  rewrite (filter_known _ Hpos).
  rewrite decide_True by done.
  rewrite shape_size_product, Hlen, decide_True by done.
  do 2 f_equal. rewrite <- list_fmap_compose.
  rewrite <- (list_fmap_id shape) at 2.
  apply list_fmap_ext. intros _ d _. simpl. lia.
Qed.

(** ** Array to ImageData and back *)

Lemma supported_cases (t : dtype) :
  supported t →
  t ∈ [int16; float32; complex64; int8; int32; uint16; uint32; float64; complex128].
Proof.
  unfold supported. intros H. clear - H. apply list_elem_of_In in H. simpl in H.
  apply list_elem_of_In. simpl. tauto.
Qed.

(** The steps of [imagedatadict_to_ndarray] on a dict whose entries
    agree with one another. *)
Lemma imagedatadict_to_ndarray_consistent (d : dict) (im : ndarray)
    (code depth dims : tag) (entry : string * dtype) (shape : list Z) :
  flat_data (TDict d) = Ok (Some im) →
  assoc "DataType" d = Some code →
  dm_image_dtypes_getitem code = Ok entry →
  entry.2 = nd_dtype im →
  assoc "PixelDepth" d = Some depth →
  eq_int depth (Z.of_nat (itemsize (nd_dtype im))) = true →
  assoc "Dimensions" d = Some dims →
  reversed_extents dims = Ok shape →
  imagedatadict_to_ndarray (TDict d) = reshape im shape.
Proof.
  intros Hflat Hcode Hentry Hty Hdepth Heq Hdims Hshape.
  unfold imagedatadict_to_ndarray. rewrite Hflat. simpl.
  rewrite Hcode. simpl. rewrite Hentry. simpl.
  rewrite decide_True by done.
  rewrite Hdepth. simpl. rewrite Heq, Hdims. simpl. by rewrite Hshape.
Qed.

Lemma imagedata_round_trip (a : ndarray) (extra : dict) :
  ndarray_wf a → supported (nd_dtype a) →
  ∃ d, ndarray_to_imagedatadict a = Ok d ∧
       assoc "Calibrations" d = None ∧
       assoc "Dimensions" d
         = Some (TList ((λ n, TInt (Z.of_nat n)) <$> reverse (nd_shape a))) ∧
       imagedatadict_to_ndarray (TDict (d ++ extra)) = Ok (as_read_back a).
Proof.
  destruct a as [t o shape data]. intros [Hlen Hok] Hs. simpl in *.
  apply supported_cases in Hs.
  pose proof (frombuffer_memory (NdArray t o shape data) Hok) as Hbuf.
  pose proof (reversed_extents_shape shape) as Hext.
  assert (∀ old, reshape (NdArray t Native old (read_back o t <$> data))
                   (Z.of_nat <$> shape)
                 = Ok (as_read_back (NdArray t o shape data))) as Hre.
  { intros old. apply reshape_flat. by rewrite length_fmap. }
  repeat (apply elem_of_cons in Hs as [->|Hs]); [..|by apply elem_of_nil in Hs].
  all: eexists; split; [reflexivity|]; split; [reflexivity|].
  all: split; [reflexivity|].
  all: erewrite imagedatadict_to_ndarray_consistent; [apply Hre|..].
  all: try reflexivity.
  all: try exact Hext.
  all: exact (f_equal (fmap Some) Hbuf).
Qed.

(** An element that is no signalling NaN of float32 comes back as it
    was from an array in the byte order of the machine. *)
Lemma read_back_exact (t : dtype) (x : scalar) :
  scalar_ok t x = true →
  (t = float32 → match x with SFloat b => signalling32 b | _ => false end = false) →
  read_back Native t x = x.
Proof.
  intros Hok Hquiet. unfold read_back.
  destruct (assoc t np_to_structarray_map) as [types|] eqn:Hmap.
  - by apply scalar_of_bytes_bytes.
  - destruct t, x; try done. unfold array_item, quiet32.
    by rewrite (Hquiet eq_refl).
Qed.

Lemma as_read_back_exact (a : ndarray) :
  ndarray_wf a →
  nd_byteorder a = Native →
  holds_signalling_nan a = false →
  as_read_back a = a.
Proof.
  destruct a as [t o shape data]. intros [_ Hok] Ho Hnan. simpl in *. subst o.
  unfold as_read_back. cbn [nd_dtype nd_byteorder nd_shape nd_data]. f_equal.
  rewrite <- (list_fmap_id data) at 2.
  apply Forall_fmap_ext_1.
  unfold holds_signalling_nan in Hnan. cbn [nd_dtype nd_data] in Hnan.
  induction Hok as [|x data Hx _ IH]; constructor.
  - apply read_back_exact; [done|]. intros ->.
    rewrite bool_decide_eq_true_2 in Hnan by done. cbn [andb existsb] in Hnan.
    by apply orb_false_elim in Hnan as [? _].
  - apply IH. destruct (bool_decide (t = float32)); [|done].
    cbn [andb existsb] in *. by apply orb_false_elim in Hnan as [_ ?].
Qed.

(** C2 (dimensions law).  For an array of a supported element type,
    [ndarray_to_imagedatadict] builds a node whose [Dimensions] is the
    reversed shape, and [imagedatadict_to_ndarray] of that node gives
    an array of the original shape whose flat elements are those of
    the original in the same order: the element at each position is
    the one that stood there as it is read back, which is the element
    itself when the array is in the byte order of the machine and
    holds no signalling NaN of float32. *)
Theorem dimensions_law (a : ndarray) :
  ndarray_wf a → supported (nd_dtype a) →
  ∃ d a',
    ndarray_to_imagedatadict a = Ok d ∧
    assoc "Dimensions" d
      = Some (TList ((λ n, TInt (Z.of_nat n)) <$> reverse (nd_shape a))) ∧
    imagedatadict_to_ndarray (TDict d) = Ok a' ∧
    nd_shape a' = nd_shape a ∧
    nd_data a' = read_back (nd_byteorder a) (nd_dtype a) <$> nd_data a ∧
    (nd_byteorder a = Native → holds_signalling_nan a = false →
     nd_data a' = nd_data a).
Proof.
  intros Hwf Hs.
  destruct (imagedata_round_trip a [] Hwf Hs) as (d & Hd & _ & Hdims & Hback).
  rewrite app_nil_r in Hback.
  exists d, (as_read_back a). split_and!; try done.
  intros Ho Hnan. by rewrite as_read_back_exact.
Qed.

(** C8 (structured adapter exactness).  A complex64 or complex128
    array in the byte order of the machine is stored as a
    [structarray] of two float fields whose raw bytes are those of the
    array, real part first; reading these bytes back gives the same
    elements bit for bit, and the whole node converts back to the same
    array. *)
Theorem structured_adapter_exact (c : ndarray) :
  nd_dtype c = complex64 ∨ nd_dtype c = complex128 →
  ndarray_wf c →
  nd_byteorder c = Native →
  ∃ d types,
    ndarray_to_imagedatadict c = Ok d ∧
    assoc (nd_dtype c) np_to_structarray_map = Some types ∧
    assoc "Data" d = Some (TStruct (StructArray types (nd_bytes c))) ∧
    assoc types structarray_to_np_map = Some (nd_dtype c) ∧
    frombuffer (nd_bytes c) (nd_dtype c) = Ok (flatten c) ∧
    imagedatadict_to_ndarray (TDict d) = Ok c.
Proof.
  intros Hc Hwf Ho.
  assert (supported (nd_dtype c)) as Hs.
  { unfold supported. destruct Hc as [-> | ->]; by apply (bool_decide_unpack _). }
  assert (holds_signalling_nan c = false) as Hnan.
  { unfold holds_signalling_nan. by destruct Hc as [-> | ->]. }
  destruct (imagedata_round_trip c [] Hwf Hs) as (d & Hd & _ & _ & Hback).
  rewrite app_nil_r, (as_read_back_exact c Hwf Ho Hnan) in Hback.
  pose proof (frombuffer_nd_bytes c Ho (proj2 Hwf)) as Hbuf.
  destruct c as [t o shape data]. simpl in Hc.
  destruct Hc as [-> | ->]; exists d; eexists;
    (split; [exact Hd|]); injection Hd as <-;
    repeat (split; [reflexivity|]); (split; [exact Hbuf|exact Hback]).
Qed.

(** ** The reverse lookup *)


Lemma first_code_Raise (table : list (Z * (string * dtype))) (t : dtype) :
  first_code table t = Raise StopIteration ↔ Forall (λ kv, kv.2.2 ≠ t) table.
Proof.
  unfold first_code.
  destruct (list_find _ table) as [[i kv]|] eqn:Hfind.
  - split; [done|]. intros Hall. apply list_find_Some in Hfind as (Hi & Ht & _).
    by destruct (Forall_lookup_1 _ _ _ _ Hall Hi).
  - split; [|done]. intros _. by apply list_find_None in Hfind.
Qed.


(** ** The consistency checks *)

(** Reading [Data] raises no assertion: a missing key or unknown
    field types give KeyError, a value that is no dict or an unknown
    type code TypeError, a buffer of the wrong length ValueError. *)
Lemma flat_data_raises (node : tag) (e : exn) :
  flat_data node = Raise e → e = KeyError ∨ e = TypeError ∨ e = ValueError.
Proof.
  unfold flat_data.
  destruct (getitem node "Data") as [arr|e0] eqn:Hget; cbn [mbind result_bind].
  - destruct arr as [| | | |arr|s| |]; try done.
    + unfold asarray. destruct (typecode_dtype (typecode arr)); [done|].
      intros [= <-]. by right; left.
    + destruct (assoc (typecodes s) structarray_to_np_map) as [t|];
        cbn [or_raise mbind result_bind]; [|intros [= <-]; by left].
      unfold frombuffer. case_decide; [done|]. intros [= <-]. by right; right.
  - intros [= <-]. destruct node; try (injection Hget as <-; by right; left).
    cbn [getitem] in Hget. destruct (assoc _ _); [done|].
    injection Hget as <-. by left.
Qed.

(** C5 (consistency failure), amended.  When [PixelDepth] differs from
    the byte width of the element type of the [DataType] code, no
    array is returned.  The exception is the one of the pixel depth
    assertion exactly when [Data] is an array whose element type is
    that of the code.  Otherwise an earlier step has raised already:
    reading [Data] (KeyError, TypeError or ValueError), the use of a
    [Data] that is no array (AttributeError), or the element type
    assertion. *)
Theorem pixel_depth_mismatch_fails (node code depth : tag) (entry : string * dtype) :
  getitem node "DataType" = Ok code →
  dm_image_dtypes_getitem code = Ok entry →
  getitem node "PixelDepth" = Ok depth →
  eq_int depth (Z.of_nat (itemsize entry.2)) = false →
  (∀ im, imagedatadict_to_ndarray node ≠ Ok im) ∧
  (∀ im, flat_data node = Ok (Some im) → nd_dtype im = entry.2 →
         imagedatadict_to_ndarray node = Raise PixelDepthMismatch) ∧
  (imagedatadict_to_ndarray node = Raise PixelDepthMismatch →
   ∃ im, flat_data node = Ok (Some im) ∧ nd_dtype im = entry.2) ∧
  (∀ e, flat_data node = Raise e →
        imagedatadict_to_ndarray node = Raise e ∧
        (e = KeyError ∨ e = TypeError ∨ e = ValueError)) ∧
  (flat_data node = Ok None →
   imagedatadict_to_ndarray node = Raise AttributeError) ∧
  (∀ im, flat_data node = Ok (Some im) → nd_dtype im ≠ entry.2 →
         imagedatadict_to_ndarray node = Raise TypeMismatch).
Proof.
  intros Hcode Hentry Hdepth Hne. unfold imagedatadict_to_ndarray.
  rewrite Hcode. split_and!.
  - intros im'. destruct (flat_data node) as [[im|]|e]; simpl; try done;
      rewrite Hentry; simpl; [|done].
    destruct (decide (entry.2 = nd_dtype im)) as [Heq|]; [|done].
    rewrite Hdepth. simpl. by rewrite <- Heq, Hne.
  - intros im Hflat Hty. rewrite Hflat. simpl. rewrite Hentry. simpl.
    rewrite decide_True by done. rewrite Hdepth. simpl.
    by rewrite Hty, Hne.
  - destruct (flat_data node) as [[im|]|e] eqn:Hflat; simpl.
    + rewrite Hentry. simpl.
      destruct (decide (entry.2 = nd_dtype im)) as [Heq|]; [|done].
      intros _. by exists im.
    + by rewrite Hentry.
    + intros [= ->]. by destruct (flat_data_raises _ _ Hflat) as [?|[?|?]].
  - intros e Hflat. rewrite Hflat. split; [done|].
    by apply (flat_data_raises node).
  - intros Hflat. rewrite Hflat. simpl. by rewrite Hentry.
  - intros im Hflat Hty. rewrite Hflat. simpl. rewrite Hentry. simpl.
    by rewrite decide_False.
Qed.

(** ** fix_strings *)

Lemma tag_ind (P : tag → Prop) :
  (∀ b, P (TBool b)) → (∀ z, P (TInt z)) → (∀ bits, P (TFloat bits)) →
  (∀ s, P (TStr s)) → (∀ a, P (TArray a)) → (∀ s, P (TStruct s)) →
  (∀ l, Forall P l → P (TList l)) →
  (∀ d, Forall (λ kv, P kv.2) d → P (TDict d)) →
  ∀ t, P t.
Proof.
  intros Hb Hi Hf Hs Ha Hst Hl Hd.
  fix go 1. intros [b|z|bits|s|a|s|l|d].
  - apply Hb.
  - apply Hi.
  - apply Hf.
  - apply Hs.
  - apply Ha.
  - apply Hst.
  - apply Hl. induction l as [|x l IH]; constructor; [apply go|exact IH].
  - apply Hd. induction d as [|[k v] d IH]; constructor; [apply go|exact IH].
Qed.

Lemma fix_strings_dict (d : dict) :
  fix_strings (TDict d) = TDict <$> fix_items d.
Proof.
  simpl. match goal with |- context [?g d] =>
    assert (∀ its, g its = fix_items its) as Hgo end.
  { intros its. induction its as [|[k v] its IH]; [done|]. simpl. by rewrite IH. }
  by rewrite Hgo.
Qed.

Lemma fix_strings_list (l : list tag) :
  fix_strings (TList l) = TList <$> traverse fix_strings l.
Proof. reflexivity. Qed.

Lemma traverse_cons_Ok {A B} (f : A → result B) (x : A) (l : list A) (r : list B) :
  traverse f (x :: l) = Ok r ↔
  ∃ y ys, r = y :: ys ∧ f x = Ok y ∧ traverse f l = Ok ys.
Proof.
  simpl. destruct (f x) as [y|e]; [destruct (traverse f l) as [ys|e]|].
  - split; [intros [= <-]; by exists y, ys | intros (? & ? & -> & [= <-] & [= <-]); done].
  - split; [done | intros (? & ? & _ & _ & ?); done].
  - split; [done | intros (? & ? & _ & ? & _); done].
Qed.

Lemma traverse_lookup {A B} (f : A → result B) (l : list A) (r : list B)
    (i : nat) (x : A) :
  traverse f l = Ok r → l !! i = Some x →
  ∃ y, r !! i = Some y ∧ f x = Ok y.
Proof.
  revert r i. induction l as [|x' l IH]; intros r i Hr Hi; [done|].
  apply traverse_cons_Ok in Hr as (y & ys & -> & Hy & Hys).
  destruct i as [|i]; simpl in *.
  - injection Hi as ->. by exists y.
  - by eapply IH.
Qed.

Lemma traverse_length {A B} (f : A → result B) (l : list A) (r : list B) :
  traverse f l = Ok r → length r = length l.
Proof.
  revert r. induction l as [|x l IH]; intros r Hr.
  - by injection Hr as <-.
  - apply traverse_cons_Ok in Hr as (y & ys & -> & _ & Hys).
    simpl. f_equal. by apply IH.
Qed.

Lemma fix_items_cons_Ok (k : string) (v : tag) (rest r : dict) :
  fix_items ((k, v) :: rest) = Ok r ↔
  ∃ v' r', r = (k, v') :: r' ∧
           (if decide (k = "Data") then v' = v else fix_strings v = Ok v') ∧
           fix_items rest = Ok r'.
Proof.
  cbn [fix_items]. destruct (decide (k = "Data")) as [->|Hk].
  - rewrite decide_False by (by intros ?).
    destruct (fix_items rest) as [r'|e].
    + split; [intros [= <-]; by exists v, r' | intros (? & ? & -> & -> & [= <-]); done].
    + split; [done | intros (? & ? & _ & _ & ?); done].
  - rewrite decide_True by done.
    destruct (fix_strings v) as [v'|e]; [destruct (fix_items rest) as [r'|e]|].
    + split; [intros [= <-]; by exists v', r'
             | intros (? & ? & -> & [= <-] & [= <-]); done].
    + split; [done | intros (? & ? & _ & _ & ?); done].
    + split; [done | intros (? & ? & _ & ? & _); done].
Qed.

Lemma fix_items_assoc (d r : dict) (k : string) (v : tag) :
  fix_items d = Ok r → assoc k d = Some v →
  ∃ v', assoc k r = Some v' ∧
        (if decide (k = "Data") then v' = v else fix_strings v = Ok v').
Proof.
  revert r. induction d as [|[k' x] d IH]; intros r Hr Hk; [done|].
  apply fix_items_cons_Ok in Hr as (x' & r' & -> & Hx & Hr').
  cbn [assoc] in *. destruct (decide (k' = k)) as [->|Hne].
  - injection Hk as ->. by exists x'.
  - by apply IH.
Qed.

Lemma fix_items_keys (d r : dict) : fix_items d = Ok r → r.*1 = d.*1.
Proof.
  revert r. induction d as [|[k x] d IH]; intros r Hr.
  - by injection Hr as <-.
  - apply fix_items_cons_Ok in Hr as (x' & r' & -> & _ & Hr').
    rewrite !fmap_cons. f_equal. by apply IH.
Qed.

Lemma subtree_app (p q : list step) (t : tag) :
  subtree (p ++ q) t = subtree p t ≫= subtree q.
Proof.
  revert t. induction p as [|[k|i] p IH]; intros t.
  - by destruct q.
  - destruct t as [| | | | | | |d]; try done. simpl.
    destruct (assoc k d); [apply IH|done].
  - destruct t as [| | | | | |l|]; try done. simpl.
    destruct (l !! i); [apply IH|done].
Qed.

(** Below a path free of ["Data"], the result holds what
    [fix_strings] makes of the node that was there. *)
Lemma fix_strings_subtree (p : list step) (t t' x : tag) :
  fix_strings t = Ok t' → data_free p → subtree p t = Some x →
  ∃ y, subtree p t' = Some y ∧ fix_strings x = Ok y.
Proof.
  unfold data_free. revert t t'.
  induction p as [|[k|i] p IH]; intros t t' Ht Hp Hx.
  - injection Hx as <-. by exists t'.
  - apply not_elem_of_cons in Hp as [Hk Hp].
    destruct t as [| | | | | | |d]; try done. simpl in Hx.
    destruct (assoc k d) as [v|] eqn:Hv; [|done].
    rewrite fix_strings_dict in Ht.
    destruct (fix_items d) as [r|] eqn:Hr; [|done]. injection Ht as <-.
    destruct (fix_items_assoc _ _ _ _ Hr Hv) as (v' & Hv' & Hfix).
    rewrite decide_False in Hfix by congruence.
    destruct (IH v v' Hfix Hp Hx) as (y & Hy & Hxy).
    exists y. split; [|done]. simpl. by rewrite Hv'.
  - apply not_elem_of_cons in Hp as [_ Hp].
    destruct t as [| | | | | |l|]; try done. simpl in Hx.
    destruct (l !! i) as [v|] eqn:Hv; [|done].
    rewrite fix_strings_list in Ht.
    destruct (traverse fix_strings l) as [r|] eqn:Hr; [|done]. injection Ht as <-.
    destruct (traverse_lookup _ _ _ _ _ Hr Hv) as (v' & Hv' & Hfix).
    destruct (IH v v' Hfix Hp Hx) as (y & Hy & Hxy).
    exists y. split; [|done]. simpl. by rewrite Hv'.
Qed.

Lemma fix_strings_node (x y : tag) : fix_strings x = Ok y → node_fixed x y.
Proof.
  destruct x as [b|z|bits|s|a|s|l|d]; try (by intros [= <-]).
  - simpl. destruct (utf16_decode (tostring a)) as [s|]; [|done].
    intros [= <-]. by exists s.
  - rewrite fix_strings_list.
    destruct (traverse fix_strings l) as [r|] eqn:Hr; [|done].
    intros [= <-]. exists r. split; [done|]. by eapply traverse_length.
  - rewrite fix_strings_dict.
    destruct (fix_items d) as [r|] eqn:Hr; [|done].
    intros [= <-]. exists r. split; [done|]. by apply fix_items_keys.
Qed.

Lemma fix_strings_data_verbatim (x y v : tag) :
  fix_strings x = Ok y → subtree [Key "Data"] x = Some v →
  subtree [Key "Data"] y = Some v.
Proof.
  destruct x as [| | | | | | |d]; try done.
  rewrite fix_strings_dict. simpl.
  destruct (fix_items d) as [r|] eqn:Hr; [|done]. intros [= <-].
  destruct (assoc "Data" d) as [v0|] eqn:Hv; [|done]. intros [= <-].
  destruct (fix_items_assoc _ _ _ _ Hr Hv) as (v' & Hv' & Hfix).
  rewrite decide_True in Hfix by done. subst v'. simpl. by rewrite Hv'.
Qed.

Lemma traverse_is_Ok {A B} (f : A → result B) (l : list A) :
  is_Ok (traverse f l) ↔ Forall (λ x, is_Ok (f x)) l.
Proof.
  induction l as [|x l IH].
  - split; [constructor | by eexists].
  - rewrite Forall_cons, <- IH. simpl. unfold is_Ok.
    destruct (f x) as [y|e]; [destruct (traverse f l) as [ys|e]|].
    + split; [by eauto | by eexists].
    + split; [by intros [? ?] | by intros [_ [? ?]]].
    + split; [by intros [? ?] | by intros [[? ?] _]].
Qed.

Lemma fix_items_is_Ok (d : dict) :
  is_Ok (fix_items d) ↔
  Forall (λ kv, kv.1 = "Data" ∨ is_Ok (fix_strings kv.2)) d.
Proof.
  induction d as [|[k v] d IH].
  - split; [constructor | by eexists].
  - rewrite Forall_cons, <- IH. cbn [fix_items fst snd]. unfold is_Ok.
    destruct (decide (k = "Data")) as [->|Hk].
    + rewrite decide_False by (by intros ?).
      destruct (fix_items d) as [r|e].
      * split; [by eauto | by eexists].
      * split; [by intros [? ?] | by intros [_ [? ?]]].
    + rewrite decide_True by done.
      destruct (fix_strings v) as [v'|e]; [destruct (fix_items d) as [r|e]|].
      * split; [by eauto | by eexists].
      * split; [by intros [? ?] | by intros [_ [? ?]]].
      * split; [by intros [? ?] | by intros [[?|[? ?]] _]].
Qed.

Lemma Forall_iff_pointwise {A} (P Q : A → Prop) (l : list A) :
  Forall (λ x, P x ↔ Q x) l → Forall P l ↔ Forall Q l.
Proof.
  induction 1 as [|x l Hx _ IH]; [done|].
  rewrite !Forall_cons. by rewrite Hx, IH.
Qed.

(** [fix_strings] returns exactly when every array outside ["Data"]
    is UTF-16 text. *)
Lemma fix_strings_is_Ok (t : tag) :
  is_Ok (fix_strings t) ↔
  Forall (λ a, is_Some (utf16_decode (tostring a))) (text_arrays t).
Proof.
  induction t as [b|z|bits|s|a|s|l IH|d IH] using tag_ind;
    try (split; [constructor | by eexists]).
  - simpl. rewrite Forall_singleton. unfold is_Ok.
    destruct (utf16_decode (tostring a)) as [s|].
    + split; [by eauto | by eexists].
    + split; [by intros [? ?] | by intros [? ?]].
  - rewrite fix_strings_list. cbn [text_arrays].
    rewrite Forall_concat, Forall_fmap.
    transitivity (is_Ok (traverse fix_strings l)).
    { unfold is_Ok. destruct (traverse fix_strings l); simpl;
        split; intros [? ?]; by eauto. }
    rewrite traverse_is_Ok. by apply Forall_iff_pointwise.
  - rewrite fix_strings_dict. cbn [text_arrays].
    rewrite Forall_concat, Forall_fmap.
    transitivity (is_Ok (fix_items d)).
    { unfold is_Ok. destruct (fix_items d); simpl;
        split; intros [? ?]; by eauto. }
    rewrite fix_items_is_Ok. apply Forall_iff_pointwise.
    eapply Forall_impl; [exact IH|]. intros [k v] Hv. simpl in *.
    destruct (decide (k = "Data")) as [->|Hk].
    + split; [constructor | by left].
    + rewrite <- Hv. split; [by intros [?|?] | by right].
Qed.

(** C9 (metadata normalization).  When every array outside ["Data"]
    is UTF-16 text, [fix_strings] returns a tree in which, along any
    path that does not go through a key named ["Data"], an array has
    become the text it decodes to, a list has kept its length, a dict
    its keys, and any other node is unchanged; and whatever stood
    under a key ["Data"] at the end of such a path stands there
    unchanged. *)
Theorem fix_strings_normalizes (t : tag) :
  Forall (λ a, is_Some (utf16_decode (tostring a))) (text_arrays t) →
  ∃ t', fix_strings t = Ok t' ∧
    ∀ p x, data_free p → subtree p t = Some x →
      (∃ y, subtree p t' = Some y ∧ node_fixed x y) ∧
      (∀ v, subtree [Key "Data"] x = Some v →
            subtree (p ++ [Key "Data"]) t' = Some v).
Proof.
  intros Hdec. apply fix_strings_is_Ok in Hdec as [t' Ht'].
  exists t'. split; [done|]. intros p x Hp Hx.
  destruct (fix_strings_subtree p t t' x Ht' Hp Hx) as (y & Hy & Hxy).
  split.
  - exists y. split; [done|]. by apply fix_strings_node.
  - intros v Hv. rewrite subtree_app, Hy. simpl.
    by eapply (fix_strings_data_verbatim x y v).
Qed.

(** ** The properties of a loaded image *)

Lemma bind_Ok {A B} (m : result A) (f : A → result B) (b : B) :
  m ≫= f = Ok b ↔ ∃ a, m = Ok a ∧ f a = Ok b.
Proof.
  destruct m as [a|e]; simpl.
  - split; [by exists a | by intros (? & [= <-] & ?)].
  - split; [done | by intros (? & ? & _)].
Qed.

Lemma bind_assoc {A B C} (m : result A) (f : A → result B) (g : B → result C) :
  (m ≫= f) ≫= g = m ≫= (λ a, f a ≫= g).
Proof. by destruct m. Qed.

Lemma load_entry_properties (entry : dict) (r : loaded) :
  load_entry (TDict entry) = Ok r →
  image_properties entry = Ok (ld_properties r) ∧
  ld_title r = assoc "Name" entry.
Proof.
  unfold load_entry. intros H.
  repeat (apply bind_Ok in H as (? & ? & H)).
  injection H as <-. by split.
Qed.

Lemma imported_properties_cases (it : tag) (props : dict) :
  imported_properties it = Ok props →
  ∃ d, it = TDict d ∧
  ((props = [("imported_properties", it)] ∧
     ∀ v, eht [("ImageTags", it)] = Some v → truthy v = false) ∨
   (∃ v f, eht [("ImageTags", it)] = Some v ∧ truthy v = true ∧
           to_float v = Ok f ∧
           props = [("imported_properties", it);
                    ("autostem", TDict [("high_tension_v", TFloat f)]);
                    ("extra_high_tension", TFloat f)])).
Proof.
  unfold imported_properties, eht. cbn [assoc]. rewrite decide_True by done.
  destruct it as [| | | | | | |d]; try done. cbn [get_default].
  intros H. exists d. split; [done|].
  destruct (assoc "ImageScanned" d) as [scanned|]; simpl in H.
  - destruct scanned as [| | | | | | |sd]; try done. simpl in H.
    destruct (assoc "EHT" sd) as [v|]; simpl in H.
    + destruct (truthy v) eqn:Hv.
      * apply bind_Ok in H as (f & Hf & [= <-]). right. by exists v, f.
      * injection H as <-. left. split; [done|]. by intros ? [= <-].
    + injection H as <-. left. by split.
  - injection H as <-. left. by split.
Qed.

(** C10 (legacy voltage keys).  In the result of loading an entry,
    ["imported_properties"] carries the whole [ImageTags] subtree;
    each of the keys ["autostem"] and ["extra_high_tension"] is there
    exactly when [ImageTags.ImageScanned.EHT] exists and is true, and
    then holds [float] of that value; when the value exists and is
    false (such as 0) the properties hold nothing else. *)
Theorem legacy_voltage_keys (entry : dict) (r : loaded) :
  load_entry (TDict entry) = Ok r →
  (∀ it, assoc "ImageTags" entry = Some it →
         assoc "imported_properties" (ld_properties r) = Some it) ∧
  (is_Some (assoc "autostem" (ld_properties r)) ↔
     ∃ v, eht entry = Some v ∧ truthy v = true) ∧
  (is_Some (assoc "extra_high_tension" (ld_properties r)) ↔
     ∃ v, eht entry = Some v ∧ truthy v = true) ∧
  (∀ v, eht entry = Some v → truthy v = true →
     ∃ f, to_float v = Ok f ∧
          assoc "autostem" (ld_properties r)
            = Some (TDict [("high_tension_v", TFloat f)]) ∧
          assoc "extra_high_tension" (ld_properties r) = Some (TFloat f)) ∧
  (∀ v it, eht entry = Some v → truthy v = false →
     assoc "ImageTags" entry = Some it →
     ld_properties r = [("imported_properties", it)]).
Proof.
  intros Hload. apply load_entry_properties in Hload as [Hprops _].
  unfold image_properties in Hprops. unfold eht.
  destruct (assoc "ImageTags" entry) as [it|] eqn:Hit.
  - apply imported_properties_cases in Hprops as (d & -> & Hcases).
    unfold eht in Hcases. cbn [assoc] in Hcases.
    rewrite decide_True in Hcases by done.
    destruct Hcases as [[-> Hfalse] | (v & f & Hv & Htrue & Hf & ->)].
    + split_and!.
      * by intros ? [= <-].
      * split; [by intros [? ?] | intros (v & Hv & Ht)].
        by rewrite (Hfalse v Hv) in Ht.
      * split; [by intros [? ?] | intros (v & Hv & Ht)].
        by rewrite (Hfalse v Hv) in Ht.
      * intros v Hv Ht. by rewrite (Hfalse v Hv) in Ht.
      * by intros v it _ _ [= <-].
    + rewrite Hv. split_and!.
      * by intros ? [= <-].
      * split; [by exists v | by eexists].
      * split; [by exists v | by eexists].
      * intros ? [= <-] _. by exists f.
      * intros ? ? [= <-] Ht. by rewrite Ht in Htrue.
  - injection Hprops as <-. split_and!; try done.
    + split; [by intros [? ?] | by intros (? & ? & _)].
    + split; [by intros [? ?] | by intros (? & ? & _)].
Qed.

(** ** Selection of the entry *)

Lemma traverse_app {A B} (f : A → result B) (l1 l2 : list A) :
  traverse f (l1 ++ l2)
  = r1 ← traverse f l1; r2 ← traverse f l2; Ok (r1 ++ r2).
Proof.
  induction l1 as [|x l1 IH]; simpl.
  - by destruct (traverse f l2).
  - destruct (f x); [|done]. rewrite IH.
    destruct (traverse f l1); [|done]. simpl.
    by destruct (traverse f l2).
Qed.

Lemma fix_items_app (d1 d2 : dict) :
  fix_items (d1 ++ d2)
  = r1 ← fix_items d1; r2 ← fix_items d2; Ok (r1 ++ r2).
Proof.
  induction d1 as [|[k v] d1 IH]; cbn [app fix_items].
  - simpl. by destruct (fix_items d2).
  - destruct (if decide (k ≠ "Data") then fix_strings v else Ok v); [|done].
    rewrite IH. destruct (fix_items d1); [|done]. simpl.
    by destruct (fix_items d2).
Qed.

Lemma assoc_app {V} (k : string) (d1 d2 : list (string * V)) :
  assoc k (d1 ++ d2)
  = match assoc k d1 with Some v => Some v | None => assoc k d2 end.
Proof.
  induction d1 as [|[k' v] d1 IH]; [done|].
  simpl. by destruct (decide (k' = k)).
Qed.

Lemma fix_items_assoc_None (d r : dict) (k : string) :
  fix_items d = Ok r → assoc k d = None → assoc k r = None.
Proof.
  revert r. induction d as [|[k' x] d IH]; intros r Hr Hk.
  - by injection Hr as <-.
  - apply fix_items_cons_Ok in Hr as (x' & r' & -> & _ & Hr').
    cbn [assoc] in *. destruct (decide (k' = k)); [done|]. by apply IH.
Qed.

(** The document read, seen from the entry [load_fixed] selects. *)
Lemma load_tags_last_entry (before after : dict) (pre pre' : list tag) (e : tag) :
  assoc "ImageList" before = None →
  traverse fix_strings pre = Ok pre' →
  load_tags (TDict (before ++ ("ImageList", TList (pre ++ [e])) :: after))
  = (_ ← fix_items before;
     e' ← fix_strings e;
     _ ← fix_items after;
     load_entry e').
Proof.
  intros Hbefore Hpre. unfold load_tags.
  rewrite fix_strings_dict, fix_items_app.
  destruct (fix_items before) as [r1|] eqn:Hr1; [|done].
  cbn [mbind result_bind fmap result_fmap fix_items].
  rewrite decide_True by done.
  rewrite fix_strings_list, traverse_app, Hpre.
  cbn [mbind result_bind fmap result_fmap traverse].
  destruct (fix_strings e) as [e'|]; [|done].
  cbn [mbind result_bind fmap result_fmap].
  destruct (fix_items after) as [r2|]; [|done].
  cbn [mbind result_bind fmap result_fmap].
  unfold load_fixed. cbn [getitem].
  rewrite assoc_app, (fix_items_assoc_None _ _ _ Hr1 Hbefore).
  cbn [assoc]. rewrite decide_True by done.
  cbn [or_raise mbind result_bind index_last]. by rewrite last_snoc.
Qed.

(** C4 (document selection).  When the entries before the last one
    pass [fix_strings], loading a file whose [ImageList] ends with
    entry [e] gives what loading the document with [e] as its only
    entry gives, whatever the entries before it are.  The load is
    the extraction from [e] after [fix_strings], once the rest of the
    document has passed [fix_strings]: a result that is returned is
    the one extracted from [e], and what is extracted from [e] is
    returned. *)
Theorem load_image_selects_last (fs : files) (p : string) (w : wire)
    (before after : dict) (pre pre' : list tag) (e : tag) :
  assoc "ImageList" before = None →
  traverse fix_strings pre = Ok pre' →
  fs !! p = Some w →
  parse_dm_header_read w
    = Ok (TDict (before ++ ("ImageList", TList (pre ++ [e])) :: after)) →
  load_image (Stream p) fs
    = load_tags (TDict (before ++ ("ImageList", TList [e]) :: after)) ∧
  (∀ r, load_image (Stream p) fs = Ok r →
        ∃ e', fix_strings e = Ok e' ∧ load_entry e' = Ok r) ∧
  load_image (Stream p) fs
    = (_ ← fix_strings (TDict before);
       e' ← fix_strings e;
       _ ← fix_strings (TDict after);
       load_entry e') ∧
  (∀ e' r, is_Ok (fix_strings (TDict before)) →
           is_Ok (fix_strings (TDict after)) →
           fix_strings e = Ok e' → load_entry e' = Ok r →
           load_image (Stream p) fs = Ok r).
Proof.
  intros Hbefore Hpre Hfs Hread.
  assert (load_image (Stream p) fs
          = (_ ← fix_items before; e' ← fix_strings e;
             _ ← fix_items after; load_entry e')) as Hload.
  { unfold load_image. rewrite Hfs. simpl. rewrite Hread. simpl.
    by apply (load_tags_last_entry before after pre pre'). }
  split_and!.
  - rewrite Hload. symmetry.
    by apply (load_tags_last_entry before after [] []).
  - intros r Hr. rewrite Hload in Hr.
    apply bind_Ok in Hr as (_ & _ & Hr).
    apply bind_Ok in Hr as (e' & He' & Hr).
    apply bind_Ok in Hr as (_ & _ & Hr). by exists e'.
  - rewrite Hload, !fix_strings_dict.
    destruct (fix_items before); [|done]. cbn [fmap result_fmap mbind result_bind].
    destruct (fix_strings e); [|done]. cbn [mbind result_bind].
    by destruct (fix_items after).
  - intros e' r [b Hb] [c Hc] He' Hr. rewrite Hload.
    rewrite fix_strings_dict in Hb, Hc.
    destruct (fix_items before); [|done].
    destruct (fix_items after); [|done].
    cbn [mbind result_bind]. by rewrite He'.
Qed.

(** ** The document that is saved *)

Lemma ndarray_to_imagedatadict_Ok (a : ndarray) :
  supported (nd_dtype a) →
  ∃ code data, ndarray_to_imagedatadict a = Ok (imagedata_items a code data).
Proof.
  destruct a as [t shape els]. intros Hs. simpl in Hs.
  apply supported_cases in Hs.
  repeat (apply elem_of_cons in Hs as [->|Hs]); [..|by apply elem_of_nil in Hs];
    by do 2 eexists.
Qed.

Lemma dict_set_last {V} (k : string) (v x : V) (d : list (string * V)) :
  assoc k d = None → dict_set k v (d ++ [(k, x)]) = d ++ [(k, v)].
Proof.
  induction d as [|[k' y] d IH]; simpl.
  - intros _. by rewrite decide_True.
  - destruct (decide (k' = k)); [done|]. intros Hd. by rewrite IH.
Qed.

Lemma dict_set_single {V} (k : string) (v x : V) :
  dict_set k v [(k, x)] = [(k, v)].
Proof. simpl. by rewrite decide_True. Qed.

Lemma dict_set_fresh {V} (k : string) (v : V) (d : list (string * V)) :
  assoc k d = None → dict_set k v d = d ++ [(k, v)].
Proof.
  induction d as [|[k' y] d IH]; simpl; [done|].
  destruct (decide (k' = k)); [done|]. intros Hd. by rewrite IH.
Qed.

Lemma assoc_last {V} (k : string) (v : V) (d : list (string * V)) :
  assoc k d = None → assoc k (d ++ [(k, v)]) = Some v.
Proof.
  intros Hd. rewrite assoc_app, Hd. simpl. by rewrite decide_True.
Qed.

Lemma add_dimensions_fresh (cals : list Calibration) (rank : nat) (d : dict) :
  assoc "Calibrations" d = None →
  add_dimensions cals rank d
  = Ok (if negb (Nat.eqb (length cals) 0) && Nat.eqb (length cals) rank
        then d ++ [("Calibrations",
                    TDict [("Dimension", TList (dimension_entry <$> reverse cals))])]
        else d).
Proof.
  intros Hd. unfold add_dimensions, setdefault.
  destruct (negb (Nat.eqb (length cals) 0) && Nat.eqb (length cals) rank); [|done].
  rewrite Hd. cbn [assoc app].
  by rewrite dict_set_single, dict_set_last.
Qed.

Lemma add_brightness_fresh (ic : Calibration) (d : dict) :
  assoc "Calibrations" d = None →
  add_brightness (Some ic) d
  = Ok (d ++ [("Calibrations", TDict [("Brightness", brightness_entry ic)])]).
Proof.
  intros Hd. unfold add_brightness, setdefault. rewrite Hd. cbn [assoc app].
  by rewrite dict_set_single, dict_set_last.
Qed.

Lemma add_brightness_present (ic : Calibration) (d c : dict) :
  assoc "Calibrations" d = None → assoc "Brightness" c = None →
  add_brightness (Some ic) (d ++ [("Calibrations", TDict c)])
  = Ok (d ++ [("Calibrations", TDict (c ++ [("Brightness", brightness_entry ic)]))]).
Proof.
  intros Hd Hc. unfold add_brightness, setdefault.
  rewrite (assoc_last _ _ _ Hd), Hc.
  by rewrite (dict_set_last "Brightness") , dict_set_last.
Qed.

(** What [save_image] hands to the codec. *)
Lemma save_tags_document (a : ndarray) (cals : list Calibration)
    (intensity : option Calibration) (metadata : tag) (d : dict) :
  ndarray_to_imagedatadict a = Ok d →
  assoc "Calibrations" d = None →
  save_tags a cals intensity metadata
  = Ok (document
          (d ++ match calibration_items cals (length (nd_shape a)) intensity with
                | [] => []
                | its => [("Calibrations", TDict its)]
                end)
          metadata).
Proof.
  intros Ha Hd. unfold save_tags, calibration_items. rewrite Ha.
  cbn [mbind result_bind]. rewrite (add_dimensions_fresh _ _ _ Hd).
  destruct (negb (Nat.eqb (length cals) 0) && _), intensity as [ic|];
    cbn [mbind result_bind app];
    rewrite ?add_brightness_present, ?add_brightness_fresh by done;
    cbn [mbind result_bind add_brightness]; by rewrite ?app_nil_r.
Qed.

Lemma dimension_entries_document (data_dict : dict) (metadata : tag) :
  dimension_entries (document data_dict metadata)
  = match assoc "Calibrations" data_dict with
    | Some (TDict c) => assoc "Dimension" c
    | _ => None
    end.
Proof.
  unfold dimension_entries, document.
  change (subtree [Key "Calibrations"; Key "Dimension"] (TDict data_dict)
          = match assoc "Calibrations" data_dict with
            | Some (TDict c) => assoc "Dimension" c
            | _ => None
            end).
  cbn [subtree].
  destruct (assoc "Calibrations" data_dict) as [[]|]; try done.
  by destruct (assoc "Dimension" d).
Qed.

Lemma count_matches (cals : list Calibration) (rank : nat) :
  negb (Nat.eqb (length cals) 0) && Nat.eqb (length cals) rank = true ↔
  cals ≠ [] ∧ length cals = rank.
Proof.
  rewrite andb_true_iff, negb_true_iff, Nat.eqb_neq, Nat.eqb_eq.
  destruct cals; simpl; (split; intros [? ?]; split; done || lia).
Qed.

(** C7 (calibration count).  For an array of a supported element
    type [save_image] builds its document and, when the codec accepts
    it, writes it without raising, however many calibrations it is
    given.  When the list is empty or its length is not the rank of
    the array, the document has no [Dimension] entries; when the
    length is the rank, [Dimension] holds one entry per calibration,
    in reversed order. *)
Theorem calibration_count_policy (a : ndarray) (cals : list Calibration)
    (intensity : option Calibration) (metadata : tag) (p : string) (fs : files) :
  supported (nd_dtype a) →
  ∃ doc,
    save_tags a cals intensity metadata = Ok doc ∧
    (∀ w, parse_dm_header_write doc = Ok w →
          save_image a cals intensity metadata (Stream p) fs
          = (Ok (), <[p := w]> fs)) ∧
    (cals = [] ∨ length cals ≠ length (nd_shape a) →
     dimension_entries doc = None) ∧
    (cals ≠ [] → length cals = length (nd_shape a) →
     dimension_entries doc = Some (TList (dimension_entry <$> reverse cals))).
Proof.
  intros Hs. destruct (ndarray_to_imagedatadict_Ok a Hs) as (code & data & Hd).
  assert (assoc "Calibrations" (imagedata_items a code data) = None) as Hnone
    by reflexivity.
  eexists. split; [by apply save_tags_document|].
  split; [|rewrite dimension_entries_document, assoc_app, Hnone;
           unfold calibration_items; split].
  - intros w Hw. unfold save_image.
    by rewrite (save_tags_document _ _ _ _ _ Hd Hnone), Hw.
  - intros Hcount.
    destruct (negb (Nat.eqb (length cals) 0) && _) eqn:Hc.
    + apply count_matches in Hc as [? ?]. by destruct Hcount.
    + by destruct intensity.
  - intros Hne Hlen.
    rewrite (proj2 (count_matches cals _)) by done.
    cbn [app assoc]. by rewrite !decide_True.
Qed.

(** ** Saving to a path *)

(** C3 (saving to a path).  Given a path, [save_image] creates the
    file and then raises: the file is left empty and no document is
    written, whatever the array, the calibrations and the metadata
    are; given a file object, the same arguments write the document. *)
Theorem save_image_path_raises (a : ndarray) (cals : list Calibration)
    (intensity : option Calibration) (metadata : tag) (p : string) (fs : files) :
  save_image a cals intensity metadata (Path p) fs
    = (Raise NameError, <[p := empty_wire]> fs) ∧
  ∀ doc w, save_tags a cals intensity metadata = Ok doc →
           parse_dm_header_write doc = Ok w →
           save_image a cals intensity metadata (Stream p) fs
           = (Ok (), <[p := w]> fs).
Proof.
  split; [done|]. intros doc w Hdoc Hw. unfold save_image.
  by rewrite Hdoc, Hw.
Qed.

(** ** Saving and loading again *)

Lemma traverse_dimension_triple (cals : list Calibration) :
  traverse dimension_triple (dimension_entry <$> cals)
  = Ok (calibration_triple <$> cals).
Proof. by apply traverse_fmap_Ok. Qed.

Lemma fix_items_calibrations (cals : list Calibration) (rank : nat)
    (ic : Calibration) :
  fix_items (calibration_items cals rank (Some ic))
  = Ok (calibration_items cals rank (Some ic)).
Proof.
  assert (fix_strings (TList (dimension_entry <$> reverse cals))
          = Ok (TList (dimension_entry <$> reverse cals))) as Hdims.
  { rewrite fix_strings_list.
    by rewrite (traverse_fmap_Ok _ _ dimension_entry). }
  assert (fix_strings (brightness_entry ic) = Ok (brightness_entry ic)) as Hb
    by reflexivity.
  unfold calibration_items.
  destruct (negb (Nat.eqb (length cals) 0) && _); cbn [app fix_items];
    rewrite ?decide_True by done; by rewrite ?Hdims, Hb.
Qed.

Lemma fix_items_imagedata (a : ndarray) (code : Z) (data : tag) :
  fix_items (imagedata_items a code data) = Ok (imagedata_items a code data).
Proof.
  assert (∀ l : list nat,
            fix_strings (TList ((λ d, TInt (Z.of_nat d)) <$> l))
            = Ok (TList ((λ d, TInt (Z.of_nat d)) <$> l))) as Hdims.
  { intros l. rewrite fix_strings_list.
    by rewrite (traverse_fmap_Ok _ _ (λ d, TInt (Z.of_nat d))). }
  unfold imagedata_items. cbn [fix_items].
  rewrite !decide_True by done. rewrite decide_False by (by intros ?).
  by rewrite Hdims.
Qed.

(** [fix_strings] changes nothing of a saved document but the
    metadata. *)
Lemma fix_strings_document (a : ndarray) (code : Z) (data : tag)
    (cals : list Calibration) (rank : nat) (ic : Calibration)
    (metadata metadata' : tag) :
  fix_strings metadata = Ok metadata' →
  fix_strings
    (document (imagedata_items a code data
               ++ [("Calibrations", TDict (calibration_items cals rank (Some ic)))])
       metadata)
  = Ok (document (imagedata_items a code data
                  ++ [("Calibrations", TDict (calibration_items cals rank (Some ic)))])
          metadata').
Proof.
  intros Hmeta.
  assert (fix_strings
            (TDict (imagedata_items a code data
                    ++ [("Calibrations", TDict (calibration_items cals rank (Some ic)))]))
          = Ok (TDict (imagedata_items a code data
                       ++ [("Calibrations", TDict (calibration_items cals rank (Some ic)))])))
    as Hdata.
  { rewrite fix_strings_dict, fix_items_app, fix_items_imagedata.
    cbn [mbind result_bind fix_items]. rewrite decide_True by done.
    rewrite fix_strings_dict, fix_items_calibrations. done. }
  unfold document. rewrite fix_strings_dict. cbn [fix_items].
  rewrite !decide_True by done.
  rewrite fix_strings_list. cbn [traverse].
  rewrite fix_strings_dict. cbn [fix_items].
  rewrite !decide_True by done. rewrite Hdata, Hmeta. done.
Qed.

Lemma load_fixed_document (data_dict : dict) (metadata : tag) :
  load_fixed (document data_dict metadata)
  = load_entry (TDict [("ImageData", TDict data_dict); ("ImageTags", metadata)]).
Proof. reflexivity. Qed.

Lemma load_entry_saved (data_dict : dict) (metadata : tag) :
  load_entry (TDict [("ImageData", TDict data_dict); ("ImageTags", metadata)])
  = (data ← imagedatadict_to_ndarray (TDict data_dict);
     let calibration_tags := default (TDict []) (assoc "Calibrations" data_dict) in
     dimensions ← get_default calibration_tags "Dimension" (TList []);
     dimension_list ← iterate dimensions;
     calibrations ← traverse dimension_triple dimension_list;
     brightness ← get_default calibration_tags "Brightness" (TDict []);
     b_origin ← get_default brightness "Origin" (TFloat float_zero);
     b_scale ← get_default brightness "Scale" (TFloat float_one);
     b_units ← get_default brightness "Units" (TStr "");
     properties ← imported_properties metadata;
     Ok (Loaded data (reverse calibrations) (b_origin, b_scale, b_units)
           None properties)).
Proof. reflexivity. Qed.

(** The calibrations [load_image] reads from what [save_image] wrote. *)
Lemma load_saved_calibrations (cals : list Calibration) (ic : Calibration) :
  cals ≠ [] ∨ cals = [] →
  let its := calibration_items cals (length cals) (Some ic) in
  (dimensions ← get_default (TDict its) "Dimension" (TList []);
   dimension_list ← iterate dimensions;
   traverse dimension_triple dimension_list)
  = Ok (calibration_triple <$> reverse cals) ∧
  get_default (TDict its) "Brightness" (TDict []) = Ok (brightness_entry ic).
Proof.
  intros _ its. subst its. unfold calibration_items.
  destruct cals as [|c cals].
  - by split.
  - replace (negb _ && _) with true
      by (symmetry; apply count_matches; by split).
    split; [|reflexivity].
    change (traverse dimension_triple (dimension_entry <$> reverse (c :: cals))
            = Ok (calibration_triple <$> reverse (c :: cals))).
    apply traverse_dimension_triple.
Qed.

(** C1 (round trip).  Let [a] be an array of a supported element
    type in the byte order of the machine that holds no signalling NaN
    of float32, with one calibration per axis and an intensity
    calibration, and let the metadata be such that [fix_strings]
    accepts it and the properties can be drawn from it.  If the codec
    writes the document and reads back a document that [fix_strings]
    cannot tell from it, then saving to a file object and loading from
    it returns the array (element type, byte order, shape and
    elements), the axis calibrations in their order and the intensity
    calibration. *)
Theorem save_load_round_trip (a : ndarray) (cals : list Calibration)
    (ic : Calibration) (metadata metadata' : tag) (props : dict)
    (p : string) (fs : files) :
  ndarray_wf a →
  supported (nd_dtype a) →
  nd_byteorder a = Native →
  holds_signalling_nan a = false →
  length cals = length (nd_shape a) →
  fix_strings metadata = Ok metadata' →
  imported_properties metadata' = Ok props →
  (∀ doc, save_tags a cals (Some ic) metadata = Ok doc →
     ∃ w, parse_dm_header_write doc = Ok w ∧
          parse_dm_header_read w ≫= fix_strings = fix_strings doc) →
  ∃ fs',
    save_image a cals (Some ic) metadata (Stream p) fs = (Ok (), fs') ∧
    load_image (Stream p) fs'
    = Ok (Loaded a (calibration_triple <$> cals) (calibration_triple ic)
            None props).
Proof.
  intros Hwf Hs Ho Hnan Hlen Hmeta Hprops Hcodec.
  destruct (ndarray_to_imagedatadict_Ok a Hs) as (code & data & Hd).
  set (its := calibration_items cals (length (nd_shape a)) (Some ic)) in *.
  set (extra := [("Calibrations", TDict its)]).
  destruct (imagedata_round_trip a extra Hwf Hs) as (d & Hd' & Hnone & _ & Hback).
  rewrite (as_read_back_exact a Hwf Ho Hnan) in Hback.
  rewrite Hd in Hd'. injection Hd' as <-.
  assert (save_tags a cals (Some ic) metadata
          = Ok (document (imagedata_items a code data ++ extra) metadata)) as Hdoc.
  { rewrite (save_tags_document _ _ _ _ _ Hd Hnone). fold its.
    do 3 f_equal. subst its extra. unfold calibration_items.
    by destruct (negb _ && _). }
  destruct (Hcodec _ Hdoc) as (w & Hw & Hread).
  exists (<[p := w]> fs). split.
  { unfold save_image. by rewrite Hdoc, Hw. }
  unfold load_image. rewrite lookup_insert_eq. cbn [or_raise mbind result_bind].
  change (parse_dm_header_read w ≫= (λ t, fix_strings t ≫= load_fixed)
          = Ok (Loaded a (calibration_triple <$> cals) (calibration_triple ic)
                  None props)).
  rewrite <- bind_assoc, Hread.
  subst extra its. rewrite (fix_strings_document _ _ _ _ _ _ _ _ Hmeta).
  cbn [mbind result_bind]. rewrite load_fixed_document.
  rewrite load_entry_saved, Hback.
  cbn [mbind result_bind]. rewrite (assoc_last _ _ _ Hnone).
  cbn [default from_option id]. rewrite <- Hlen.
  destruct (load_saved_calibrations cals ic) as [Hdims Hbright].
  { destruct cals; [by right | by left]. }
  cbv zeta in Hdims, Hbright.
  apply bind_Ok in Hdims as (dimensions & Hdimensions & Hdims).
  rewrite Hdimensions. cbn [mbind result_bind].
  apply bind_Ok in Hdims as (dimension_list & Hlist & Hdims).
  rewrite Hlist. cbn [mbind result_bind]. rewrite Hdims.
  cbn [mbind result_bind]. rewrite Hbright.
  cbn [mbind result_bind]. rewrite Hprops.
  cbn [mbind result_bind]. rewrite <- fmap_reverse, reverse_involutive.
  reflexivity.
Qed.

(** * Further properties *)

(** ** What load_image reads from an entry *)

(** The steps of [load_entry] after the array has been converted. *)
Lemma load_entry_steps (entry d : dict) (r : loaded) :
  load_entry (TDict entry) = Ok r →
  assoc "ImageData" entry = Some (TDict d) →
  ∃ dimensions dimension_list calibrations brightness b_origin b_scale b_units,
    let calibration_tags := default (TDict []) (assoc "Calibrations" d) in
    imagedatadict_to_ndarray (TDict d) = Ok (ld_data r) ∧
    get_default calibration_tags "Dimension" (TList []) = Ok dimensions ∧
    iterate dimensions = Ok dimension_list ∧
    traverse dimension_triple dimension_list = Ok calibrations ∧
    get_default calibration_tags "Brightness" (TDict []) = Ok brightness ∧
    get_default brightness "Origin" (TFloat float_zero) = Ok b_origin ∧
    get_default brightness "Scale" (TFloat float_one) = Ok b_scale ∧
    get_default brightness "Units" (TStr "") = Ok b_units ∧
    ld_calibrations r = reverse calibrations ∧
    ld_intensity r = (b_origin, b_scale, b_units).
Proof.
  unfold load_entry. intros H Hd. rewrite Hd in H.
  cbn [or_raise mbind result_bind get_default] in H.
  apply bind_Ok in H as (data & Hdata & H).
  apply bind_Ok in H as (dimensions & Hdims & H).
  apply bind_Ok in H as (dimension_list & Hlist & H).
  apply bind_Ok in H as (calibrations & Hcals & H).
  apply bind_Ok in H as (brightness & Hbright & H).
  apply bind_Ok in H as (b_origin & Ho & H).
  apply bind_Ok in H as (b_scale & Hs & H).
  apply bind_Ok in H as (b_units & Hu & H).
  apply bind_Ok in H as (props & Hprops & H).
  injection H as <-.
  by exists dimensions, dimension_list, calibrations, brightness,
    b_origin, b_scale, b_units.
Qed.

(** X1.  An entry whose [ImageData] has no [Calibrations] loads with no
    axis calibrations and the intensity (0.0, 1.0, ""). *)
Theorem load_entry_no_calibrations (entry d : dict) (r : loaded) :
  load_entry (TDict entry) = Ok r →
  assoc "ImageData" entry = Some (TDict d) →
  assoc "Calibrations" d = None →
  ld_calibrations r = [] ∧
  ld_intensity r = (TFloat float_zero, TFloat float_one, TStr "").
Proof.
  intros Hload Hd Hnone.
  destruct (load_entry_steps _ _ _ Hload Hd)
    as (dims & dl & cals & br & bo & bs & bu & Hsteps).
  cbv zeta in Hsteps. rewrite Hnone in Hsteps.
  destruct Hsteps as (_ & [= <-] & [= <-] & [= <-] & [= <-] & [= <-] & [= <-]
                        & [= <-] & -> & ->).
  done.
Qed.

(** X2.  Each field of [Brightness] that is missing takes its own
    default: 0.0 for [Origin], 1.0 for [Scale], "" for [Units]; a
    field that is there is returned as it is. *)
Theorem load_entry_brightness_defaults (entry d c b : dict) (r : loaded) :
  load_entry (TDict entry) = Ok r →
  assoc "ImageData" entry = Some (TDict d) →
  assoc "Calibrations" d = Some (TDict c) →
  assoc "Brightness" c = Some (TDict b) →
  ld_intensity r
  = (default (TFloat float_zero) (assoc "Origin" b),
     default (TFloat float_one) (assoc "Scale" b),
     default (TStr "") (assoc "Units" b)).
Proof.
  intros Hload Hd Hc Hb.
  destruct (load_entry_steps _ _ _ Hload Hd)
    as (dims & dl & cals & br & bo & bs & bu & Hsteps).
  cbv zeta in Hsteps. rewrite Hc in Hsteps.
  cbn [default from_option id get_default] in Hsteps.
  rewrite Hb in Hsteps. cbn [default from_option id] in Hsteps.
  destruct Hsteps as (_ & _ & _ & _ & [= <-] & Ho & Hs & Hu & _ & ->).
  cbn [get_default] in Ho, Hs, Hu.
  by injection Ho as <-; injection Hs as <-; injection Hu as <-.
Qed.

(** X3.  The axis calibrations come back in the reverse of the order
    of [Dimension]: the entry at position [i] of a list of [n] entries
    is the calibration at position [n - 1 - i], made of its [Origin],
    [Scale] and [Units]. *)
Theorem load_entry_calibrations_reversed (entry d c : dict) (l : list tag)
    (r : loaded) :
  load_entry (TDict entry) = Ok r →
  assoc "ImageData" entry = Some (TDict d) →
  assoc "Calibrations" d = Some (TDict c) →
  assoc "Dimension" c = Some (TList l) →
  length (ld_calibrations r) = length l ∧
  ∀ i x, l !! i = Some x →
    ∃ o s un,
      getitem x "Origin" = Ok o ∧ getitem x "Scale" = Ok s ∧
      getitem x "Units" = Ok un ∧
      ld_calibrations r !! (length l - 1 - i)%nat = Some (o, s, un).
Proof.
  intros Hload Hd Hc Hl.
  destruct (load_entry_steps _ _ _ Hload Hd)
    as (dims & dl & cals & br & bo & bs & bu & Hsteps).
  cbv zeta in Hsteps. rewrite Hc in Hsteps.
  cbn [default from_option id get_default] in Hsteps.
  rewrite Hl in Hsteps. cbn [default from_option id] in Hsteps.
  destruct Hsteps as (_ & [= <-] & [= <-] & Hcals & _ & _ & _ & _ & -> & _).
  pose proof (traverse_length _ _ _ Hcals) as Hlen.
  split; [by rewrite length_reverse|].
  intros i x Hx.
  destruct (traverse_lookup _ _ _ _ _ Hcals Hx) as ([[o s] un] & Hy & Htriple).
  unfold dimension_triple in Htriple.
  apply bind_Ok in Htriple as (o' & Ho & Htriple).
  apply bind_Ok in Htriple as (s' & Hs & Htriple).
  apply bind_Ok in Htriple as (un' & Hu & Htriple).
  injection Htriple as -> -> ->.
  exists o, s, un. split_and!; try done.
  apply lookup_lt_Some in Hx as Hi.
  rewrite reverse_lookup by lia.
  rewrite <- Hy. f_equal. lia.
Qed.

(** X4.  A [Dimension] entry that lacks one of [Origin], [Scale] and
    [Units] makes the load raise KeyError: unlike those of
    [Brightness], these fields have no default. *)
Theorem load_entry_dimension_incomplete (entry d c x : dict)
    (pre post : list tag) (im : ndarray) :
  assoc "ImageData" entry = Some (TDict d) →
  imagedatadict_to_ndarray (TDict d) = Ok im →
  assoc "Calibrations" d = Some (TDict c) →
  assoc "Dimension" c = Some (TList (pre ++ TDict x :: post)) →
  is_Ok (traverse dimension_triple pre) →
  assoc "Origin" x = None ∨ assoc "Scale" x = None ∨ assoc "Units" x = None →
  load_entry (TDict entry) = Raise KeyError.
Proof.
  intros Hd Him Hc Hl [triples Hpre] Hmissing.
  unfold load_entry. rewrite Hd. cbn [or_raise mbind result_bind].
  rewrite Him. cbn [mbind result_bind get_default]. rewrite Hc.
  cbn [default from_option id mbind result_bind get_default]. rewrite Hl.
  cbn [default from_option id mbind result_bind iterate].
  rewrite traverse_app, Hpre. cbn [mbind result_bind traverse].
  assert (dimension_triple (TDict x) = Raise KeyError) as ->; [|done].
  unfold dimension_triple. cbn [getitem].
  destruct (assoc "Origin" x); [|done]. cbn [or_raise mbind result_bind].
  destruct (assoc "Scale" x); [|done]. cbn [or_raise mbind result_bind].
  destruct (assoc "Units" x); [|done].
  by destruct Hmissing as [?|[?|?]].
Qed.

(** X5.  A document without [ImageList] makes the load raise KeyError,
    and one whose [ImageList] is the empty list IndexError, when
    [fix_strings] accepts the document. *)
Theorem load_tags_no_image (doc : dict) :
  is_Ok (fix_strings (TDict doc)) →
  (assoc "ImageList" doc = None → load_tags (TDict doc) = Raise KeyError) ∧
  (assoc "ImageList" doc = Some (TList []) →
   load_tags (TDict doc) = Raise IndexError).
Proof.
  intros [t Ht]. unfold load_tags. rewrite Ht. cbn [mbind result_bind].
  rewrite fix_strings_dict in Ht.
  destruct (fix_items doc) as [r|] eqn:Hr; [|done]. injection Ht as <-.
  unfold load_fixed. cbn [getitem]. split; intros Hlist.
  - by rewrite (fix_items_assoc_None _ _ _ Hr Hlist).
  - destruct (fix_items_assoc _ _ _ _ Hr Hlist) as (v' & -> & Hv').
    rewrite decide_False in Hv' by done. by injection Hv' as <-.
Qed.

(** ** What imagedatadict_to_ndarray accepts *)

Lemma imagedatadict_to_ndarray_steps (node : tag) (a : ndarray) :
  imagedatadict_to_ndarray node = Ok a →
  ∃ im code entry depth dims shape,
    flat_data node = Ok (Some im) ∧
    getitem node "DataType" = Ok code ∧
    dm_image_dtypes_getitem code = Ok entry ∧
    entry.2 = nd_dtype im ∧
    getitem node "PixelDepth" = Ok depth ∧
    eq_int depth (Z.of_nat (itemsize (nd_dtype im))) = true ∧
    getitem node "Dimensions" = Ok dims ∧
    reversed_extents dims = Ok shape ∧
    reshape im shape = Ok a.
Proof.
  unfold imagedatadict_to_ndarray. intros H.
  apply bind_Ok in H as (oim & Hflat & H).
  apply bind_Ok in H as (code & Hcode & H).
  apply bind_Ok in H as (entry & Hentry & H).
  apply bind_Ok in H as (im & Him & H).
  destruct oim as [im'|]; [|done]. injection Him as ->.
  destruct (decide (entry.2 = nd_dtype im)) as [Hty|]; [|done].
  apply bind_Ok in H as (depth & Hdepth & H).
  destruct (eq_int depth _) eqn:Heq; [|done].
  apply bind_Ok in H as (dims & Hdims & H).
  apply bind_Ok in H as (shape & Hshape & H).
  by exists im, code, entry, depth, dims, shape.
Qed.

Lemma to_nat_product (dims : list Z) :
  Forall (λ d, 0 ≤ d) dims →
  Z.of_nat (shape_size (Z.to_nat <$> dims)) = foldr Z.mul 1 dims.
Proof.
  unfold shape_size. induction 1 as [|d dims Hd _ IH]; [done|].
  rewrite fmap_cons. cbn [foldr]. rewrite Nat2Z.inj_mul, IH. lia.
Qed.

Lemma inferred_product (dims : list Z) (q : Z) :
  0 ≤ q →
  Forall (λ d, 0 ≤ d) (filter (λ d, d ≠ -1) dims) →
  Z.of_nat (shape_size ((λ d, Z.to_nat (if decide (d = -1) then q else d)) <$> dims))
  = q ^ Z.of_nat (length dims - length (filter (λ d, d ≠ -1) dims))
    * foldr Z.mul 1 (filter (λ d, d ≠ -1) dims).
Proof.
  intros Hq. unfold shape_size. induction dims as [|d dims IH]; [done|].
  rewrite fmap_cons. cbn [foldr]. rewrite Nat2Z.inj_mul.
  pose proof (length_filter (λ d : Z, d ≠ -1) dims) as Hle.
  destruct (decide (d = -1)) as [->|Hd].
  - rewrite filter_cons_False by (by intros ?). intros Hall.
    rewrite IH by done. cbn [length].
    replace (S (length dims) - length (filter (λ d : Z, (d ≠ -1)%Z) dims))%nat
      with (S (length dims - length (filter (λ d : Z, (d ≠ -1)%Z) dims))) by lia.
    rewrite Nat2Z.inj_succ, Z.pow_succ_r by lia.
    rewrite Z2Nat.id by done. lia.
  - rewrite filter_cons_True by done. intros [Hd0 Hall]%Forall_cons.
    rewrite IH by done. cbn [length foldr]. simpl in Hd0.
    replace (S (length dims) - S (length (filter (λ d : Z, (d ≠ -1)%Z) dims)))%nat
      with (length dims - length (filter (λ d : Z, (d ≠ -1)%Z) dims))%nat by lia.
    rewrite Z2Nat.id by done. lia.
Qed.

(** An array that [reshape] returns has the elements it was given and
    as many of them as its shape says. *)
Lemma reshape_Ok (im a : ndarray) (dims : list Z) :
  reshape im dims = Ok a →
  nd_dtype a = nd_dtype im ∧ nd_data a = nd_data im ∧
  length (nd_data a) = shape_size (nd_shape a).
Proof.
  unfold reshape.
  destruct (decide (Forall (λ d, 0 ≤ d) dims)) as [Hpos|_].
  - rewrite (filter_known _ Hpos).
    destruct (decide (_ = _)) as [Hp|]; [|done]. intros [= <-]. simpl.
    split_and!; try done. apply Nat2Z.inj. by rewrite to_nat_product.
  - destruct (decide (_ ∧ _)) as [[Hknown Hone]|]; [|done].
    destruct (decide (_ ∧ _)) as [[Hp Hmod]|]; [|done]. intros [= <-]. simpl.
    split_and!; try done. apply Nat2Z.inj.
    set (n := Z.of_nat (length (nd_data im))) in *.
    set (known := filter (λ d, d ≠ -1) dims) in *.
    set (p := foldr Z.mul 1 known) in *.
    assert (0 ≤ p) as Hp0.
    { subst p. clear - Hknown. induction Hknown as [|d l Hd _ IH]; simpl; lia. }
    assert (0 ≤ n `div` p) as Hq by (apply Z.div_pos; lia).
    rewrite (inferred_product dims (n `div` p) Hq Hknown).
    fold known p. rewrite Hone.
    replace (S (length known) - length known)%nat with 1%nat by lia.
    rewrite Z.pow_1_r.
    pose proof (Z.div_mod n p Hp) as Hdm. lia.
Qed.

Lemma assoc_Some_elem {K V} `{EqDecision K} (k : K) (v : V) (l : list (K * V)) :
  assoc k l = Some v → (k, v) ∈ l.
Proof.
  induction l as [|[k' v'] l IH]; [done|]. simpl.
  destruct (decide (k' = k)) as [->|].
  - intros [= ->]. apply list_elem_of_here.
  - intros H. apply list_elem_of_further. by apply IH.
Qed.

Lemma dm_image_dtypes_getitem_Ok (code : tag) (entry : string * dtype) :
  dm_image_dtypes_getitem code = Ok entry →
  ∃ z, int_value code = Some z ∧ assoc z dm_image_dtypes = Some entry.
Proof.
  unfold dm_image_dtypes_getitem.
  destruct code; try done;
    (destruct (int_value _) as [n|] eqn:Hn; [|done]);
    (destruct (assoc n dm_image_dtypes) as [e|] eqn:He; [|done]);
    intros [= <-]; by exists n.
Qed.

(** X6.  An array that [imagedatadict_to_ndarray] returns is
    consistent: it has as many elements as its shape says, its element
    type is one of the table and is the one of the node's [DataType]
    code, and the node's [PixelDepth] equals its item size. *)
Theorem imagedatadict_to_ndarray_consistent_result (node : tag) (a : ndarray) :
  imagedatadict_to_ndarray node = Ok a →
  length (nd_data a) = shape_size (nd_shape a) ∧
  supported (nd_dtype a) ∧
  ∃ code name depth,
    getitem node "DataType" = Ok code ∧
    dm_image_dtypes_getitem code = Ok (name, nd_dtype a) ∧
    getitem node "PixelDepth" = Ok depth ∧
    eq_int depth (Z.of_nat (itemsize (nd_dtype a))) = true.
Proof.
  intros H.
  apply imagedatadict_to_ndarray_steps in H
    as (im & code & [name t] & depth & dims & shape & _ & Hcode & Hentry
        & Hty & Hdepth & Heq & _ & _ & Hre).
  apply reshape_Ok in Hre as (Hdt & _ & Hlen). simpl in Hty.
  rewrite <- Hdt in Heq, Hty. subst t. split_and!; [done| |].
  - apply dm_image_dtypes_getitem_Ok in Hentry as (z & _ & Hz).
    unfold supported. apply list_elem_of_fmap.
    exists (z, (name, nd_dtype a)). split; [done|]. by apply assoc_Some_elem.
  - by exists code, name, depth.
Qed.

(** X7.  A [DataType] code that the table does not hold, such as 8,
    makes the conversion raise KeyError once [Data] has been read. *)
Theorem imagedatadict_to_ndarray_unknown_code (node code : tag) (z : Z) :
  is_Ok (flat_data node) →
  getitem node "DataType" = Ok code →
  int_value code = Some z →
  assoc z dm_image_dtypes = None →
  imagedatadict_to_ndarray node = Raise KeyError.
Proof.
  intros [im Him] Hcode Hz Hnone. unfold imagedatadict_to_ndarray.
  rewrite Him, Hcode. cbn [mbind result_bind].
  unfold dm_image_dtypes_getitem. rewrite Hz, Hnone.
  by destruct code.
Qed.

(** X8.  When the node is consistent in type and pixel depth and its
    extents are non-negative, a product of the extents other than the
    number of elements makes the conversion raise ValueError. *)
Theorem imagedatadict_to_ndarray_shape_mismatch (d : dict) (im : ndarray)
    (code depth dims : tag) (entry : string * dtype) (shape : list Z) :
  flat_data (TDict d) = Ok (Some im) →
  assoc "DataType" d = Some code →
  dm_image_dtypes_getitem code = Ok entry →
  entry.2 = nd_dtype im →
  assoc "PixelDepth" d = Some depth →
  eq_int depth (Z.of_nat (itemsize (nd_dtype im))) = true →
  assoc "Dimensions" d = Some dims →
  reversed_extents dims = Ok shape →
  Forall (λ n, 0 ≤ n) shape →
  foldr Z.mul 1 shape ≠ Z.of_nat (length (nd_data im)) →
  imagedatadict_to_ndarray (TDict d) = Raise ValueError.
Proof.
  intros Hflat Hcode Hentry Hty Hdepth Heq Hdims Hshape Hpos Hne.
  rewrite (imagedatadict_to_ndarray_consistent d im code depth dims entry shape)
    by done.
  unfold reshape. rewrite decide_True by done.
  rewrite (filter_known _ Hpos). by rewrite decide_False.
Qed.

Lemma assoc_dict_set_eq {V} (k : string) (v : V) (d : list (string * V)) :
  assoc k (dict_set k v d) = Some v.
Proof.
  induction d as [|[k' v'] d IH]; simpl.
  - by rewrite decide_True.
  - destruct (decide (k' = k)) as [->|Hne]; simpl.
    + by rewrite decide_True.
    + by rewrite decide_False.
Qed.

Lemma assoc_dict_set_ne {V} (k k' : string) (v : V) (d : list (string * V)) :
  k ≠ k' → assoc k' (dict_set k v d) = assoc k' d.
Proof.
  intros Hne. induction d as [|[k0 v0] d IH]; simpl.
  - by rewrite decide_False.
  - destruct (decide (k0 = k)) as [->|Hk0]; simpl.
    + by rewrite !decide_False.
    + destruct (decide (k0 = k')); [done|]. apply IH.
Qed.

(** X9.  Codes of the same element type are interchangeable on load:
    two nodes that differ in [DataType] only, by two codes of one
    element type such as 6, 9 and 14, convert to the same result. *)
Theorem imagedatadict_to_ndarray_alias (d : dict) (c1 c2 : Z)
    (n1 n2 : string) (t : dtype) :
  assoc c1 dm_image_dtypes = Some (n1, t) →
  assoc c2 dm_image_dtypes = Some (n2, t) →
  imagedatadict_to_ndarray (TDict (dict_set "DataType" (TInt c1) d))
  = imagedatadict_to_ndarray (TDict (dict_set "DataType" (TInt c2) d)).
Proof.
  intros H1 H2. unfold imagedatadict_to_ndarray, flat_data. cbn [getitem].
  rewrite !assoc_dict_set_eq, !assoc_dict_set_ne by done.
  destruct (or_raise (assoc "Data" d) KeyError ≫= _) as [oim|]; [|done].
  cbn [or_raise mbind result_bind dm_image_dtypes_getitem int_value].
  rewrite H1, H2. cbn [or_raise mbind result_bind snd].
  destruct oim as [im|]; [|done]. done.
Qed.

(** ** Loading and saving again *)

Lemma scalar_bytes_of_bytes (t : dtype) (bs : list byte) :
  length bs = itemsize t → scalar_bytes t (scalar_of_bytes t bs) = bs.
Proof.
  intros Hlen. unfold scalar_of_bytes, scalar_bytes.
  destruct (dtype_kind t) eqn:Hk.
  - destruct (Z.ltb_spec (le_combine bs) (2 ^ (Z.of_nat (itemsize t) * 8 - 1))).
    + by apply split_le_combine'.
    + rewrite le_split_mod.
      replace (2 * 2 ^ (Z.of_nat (itemsize t) * 8 - 1))
        with (2 ^ (Z.of_nat (itemsize t) * 8)).
      * replace (le_combine bs - 2 ^ (Z.of_nat (itemsize t) * 8))
          with (le_combine bs + (-1) * 2 ^ (Z.of_nat (itemsize t) * 8)) by lia.
        rewrite Z.mod_add by (apply Z.pow_nonzero; lia).
        rewrite <- le_split_mod. by apply split_le_combine'.
      * rewrite <- Z.pow_succ_r by (destruct t; simpl; lia). f_equal. lia.
  - by apply split_le_combine'.
  - by apply split_le_combine'.
  - cbv zeta.
    rewrite (split_le_combine' (take _ bs))
      by (rewrite length_take_le; [done | rewrite Hlen; destruct t; simpl; lia]).
    rewrite (split_le_combine' (drop _ bs))
      by (rewrite length_drop, Hlen; destruct t; try discriminate Hk; simpl; lia).
    apply take_drop.
Qed.

Lemma concat_chunks (sz n : nat) (raw : list byte) :
  length raw = (n * sz)%nat →
  concat ((λ i, take sz (drop (i * sz) raw)) <$> seq 0 n) = raw.
Proof.
  revert raw. induction n as [|n IH]; intros raw Hlen.
  - by destruct raw.
  - cbn [seq fmap list_fmap concat]. change (drop (0 * sz) raw) with raw.
    rewrite <- fmap_S_seq, <- list_fmap_compose.
    transitivity (take sz raw ++ drop sz raw); [|apply take_drop]. f_equal.
    etransitivity; [|apply (IH (drop sz raw)); rewrite length_drop; lia].
    f_equal. apply list_fmap_ext. intros _ i _. unfold compose.
    rewrite drop_drop. repeat f_equal; lia.
Qed.

(** The bytes of what [np.frombuffer] has read are the buffer. *)
Lemma nd_bytes_frombuffer (raw : list byte) (t : dtype) (a : ndarray) :
  frombuffer raw t = Ok a →
  nd_dtype a = t ∧ nd_bytes a = raw ∧ a = flatten a.
Proof.
  unfold frombuffer.
  destruct (decide (_ = 0%nat)) as [Hmod|]; [|done]. intros [= <-].
  assert (itemsize t ≠ 0%nat) as Hsz by (by destruct t).
  assert (length raw = (length raw / itemsize t * itemsize t)%nat) as Hlen.
  { pose proof (Nat.div_mod_eq (length raw) (itemsize t)). lia. }
  split; [done|]. split.
  - unfold nd_bytes. cbn [nd_dtype nd_data nd_byteorder memory_bytes].
    rewrite <- list_fmap_compose.
    etransitivity;
      [|apply (concat_chunks (itemsize t) (length raw / itemsize t) raw Hlen)].
    f_equal. apply Forall_fmap_ext_1, Forall_forall.
    intros i Hi%elem_of_seq. unfold compose.
    apply scalar_bytes_of_bytes.
    rewrite length_take_le; [done|]. rewrite length_drop. nia.
  - unfold flatten. cbn [nd_dtype nd_data nd_byteorder].
    by rewrite length_fmap, length_seq.
Qed.

(** Only a float32 element changes on its way into [array.array]. *)
Lemma array_item_other (t : dtype) (data : list scalar) :
  t ≠ float32 → array_item t <$> data = data.
Proof.
  intros Ht. rewrite <- (list_fmap_id data) at 2.
  apply list_fmap_ext. intros _ x _. by destruct t.
Qed.

Lemma array_item_complex (t : dtype) (data : list scalar) :
  dtype_kind t = KComplex → array_item t <$> data = data.
Proof. intros Hk. apply array_item_other. by intros ->. Qed.

Lemma array_item_quiet (a : ndarray) :
  holds_signalling_nan a = false →
  array_item (nd_dtype a) <$> nd_data a = nd_data a.
Proof.
  unfold holds_signalling_nan.
  destruct (decide (nd_dtype a = float32)) as [->|Ht];
    [|intros _; by apply array_item_other].
  rewrite bool_decide_eq_true_2 by done. cbn [andb].
  induction (nd_data a) as [|x data IH]; [done|].
  cbn [existsb]. intros [Hx Hdata]%orb_false_elim.
  rewrite fmap_cons, IH by done. f_equal.
  destruct x as [v|b|re im]; try done.
  unfold array_item, quiet32. by rewrite Hx.
Qed.

Lemma imagedata_round_trip_flat (a : ndarray) :
  length (nd_data a) = shape_size (nd_shape a) →
  supported (nd_dtype a) →
  (dtype_kind (nd_dtype a) = KComplex →
   frombuffer (nd_bytes a) (nd_dtype a)
   = Ok (NdArray (nd_dtype a) Native [length (nd_data a)] (nd_data a))) →
  ∃ d, ndarray_to_imagedatadict a = Ok d ∧
       imagedatadict_to_ndarray (TDict d)
       = Ok (NdArray (nd_dtype a) Native (nd_shape a)
               (array_item (nd_dtype a) <$> nd_data a)).
Proof.
  destruct a as [t o shape data]. intros Hlen Hs Hbuf.
  cbn [nd_dtype nd_data nd_shape] in *.
  apply supported_cases in Hs.
  pose proof (reversed_extents_shape shape) as Hext.
  repeat (apply elem_of_cons in Hs as [->|Hs]); [..|by apply elem_of_nil in Hs].
  all: try rewrite (array_item_complex _ data) by reflexivity.
  all: eexists; split; [reflexivity|].
  all: erewrite imagedatadict_to_ndarray_consistent;
         [apply reshape_flat; rewrite ?length_fmap; exact Hlen|..].
  all: try reflexivity.
  all: try exact Hext.
  all: exact (f_equal (fmap Some) (Hbuf eq_refl)).
Qed.

Lemma reshape_byteorder (im a : ndarray) (dims : list Z) :
  reshape im dims = Ok a → nd_byteorder a = nd_byteorder im.
Proof.
  unfold reshape. repeat case_decide; try done; by intros [= <-].
Qed.

Lemma flat_data_native (node : tag) (im : ndarray) :
  flat_data node = Ok (Some im) → nd_byteorder im = Native.
Proof.
  unfold flat_data, asarray, frombuffer.
  destruct (getitem node "Data") as [[| | | |arr|s| |]|]; try done;
    cbn [mbind result_bind].
  - destruct (typecode_dtype (typecode arr)); [|done]. by intros [= <-].
  - destruct (assoc (typecodes s) structarray_to_np_map); [|done].
    cbn [or_raise mbind result_bind]. case_decide; [|done]. by intros [= <-].
Qed.

Lemma flat_data_cases (node : tag) (im : ndarray) :
  flat_data node = Ok (Some im) →
  (∃ arr, getitem node "Data" = Ok (TArray arr) ∧ asarray arr = Ok im) ∨
  (∃ s t, getitem node "Data" = Ok (TStruct s) ∧
          assoc (typecodes s) structarray_to_np_map = Some t ∧
          frombuffer (raw_data s) t = Ok im).
Proof.
  unfold flat_data. intros H. apply bind_Ok in H as (arr & Harr & H).
  destruct arr as [| | | |arr|s| |]; try done.
  - left. exists arr. split; [done|]. by destruct (asarray arr) as [?|]; simplify_eq/=.
  - right. apply bind_Ok in H as (t & Ht & H).
    destruct (assoc (typecodes s) structarray_to_np_map) as [t'|] eqn:Hmap; [|done].
    injection Ht as ->. exists s, t. split; [done|]. split; [done|].
    by destruct (frombuffer (raw_data s) t) as [?|]; simplify_eq/=.
Qed.

Lemma asarray_not_complex (arr : pyarray) (im : ndarray) :
  asarray arr = Ok im → dtype_kind (nd_dtype im) ≠ KComplex.
Proof.
  unfold asarray, typecode_dtype.
  destruct (list_find _ array_typecodes) as [[i [c t]]|] eqn:Hfind; [|done].
  simpl. intros [= <-]. simpl.
  apply list_find_Some in Hfind as (Hi & _ & _).
  apply list_elem_of_lookup_2, list_elem_of_In in Hi. simpl in Hi.
  clear - Hi. intuition (simplify_eq; done).
Qed.

(** X10.  An array that [imagedatadict_to_ndarray] returns can be
    stored again, and the node [ndarray_to_imagedatadict] makes of it
    converts back to the same array but for the signalling NaNs of a
    float32 array, which come back quiet; without such an element it
    is the same array. *)
Theorem load_save_load (node : tag) (a : ndarray) :
  imagedatadict_to_ndarray node = Ok a →
  ∃ d, ndarray_to_imagedatadict a = Ok d ∧
       imagedatadict_to_ndarray (TDict d)
       = Ok (NdArray (nd_dtype a) (nd_byteorder a) (nd_shape a)
               (array_item (nd_dtype a) <$> nd_data a)) ∧
       (holds_signalling_nan a = false →
        imagedatadict_to_ndarray (TDict d) = Ok a).
Proof.
  intros H.
  apply imagedatadict_to_ndarray_steps in H
    as (im & code & [name t] & depth & dims & shape & Hflat & _ & Hentry
        & Hty & _ & _ & _ & _ & Hre).
  apply reshape_byteorder in Hre as Ho.
  pose proof (flat_data_native _ _ Hflat) as Him. rewrite Him in Ho.
  apply reshape_Ok in Hre as (Hdt & Hdata & Hlen). simpl in Hty.
  destruct (imagedata_round_trip_flat a) as (d & Hd & Hback); [done| | |].
  - apply dm_image_dtypes_getitem_Ok in Hentry as (z & _ & Hz).
    unfold supported. apply list_elem_of_fmap.
    exists (z, (name, t)). split; [simpl; congruence|]. by apply assoc_Some_elem.
  - intros Hk. rewrite Hdt in Hk.
    apply flat_data_cases in Hflat as [(arr & _ & Harr)|(s & t' & _ & _ & Hbuf)].
    + by apply asarray_not_complex in Harr.
    + apply nd_bytes_frombuffer in Hbuf as Hraw. destruct Hraw as (Ht' & Hraw & Hflatten).
      assert (nd_bytes a = raw_data s) as ->.
      { rewrite <- Hraw. unfold nd_bytes. by rewrite Hdt, Hdata, Ho, Him. }
      rewrite Hdt, Ht', Hbuf, Hdata. clear - Ht' Him Hflatten.
      destruct im as [ti oi si di]. unfold flatten in Hflatten.
      cbn [nd_dtype nd_byteorder nd_shape nd_data] in *.
      injection Hflatten as Hsi. by rewrite Hsi, Ht', Him.
  - exists d. rewrite Ho. split; [done|]. split; [done|].
    intros Hnan. rewrite Hback, (array_item_quiet a Hnan).
    f_equal. destruct a. simpl in Ho. by subst.
Qed.

(** X11.  A complex image that is loaded and stored again keeps its
    field type codes and its raw bytes. *)
Theorem load_save_keeps_raw_data (node : tag) (s : structarray) (a : ndarray) :
  getitem node "Data" = Ok (TStruct s) →
  imagedatadict_to_ndarray node = Ok a →
  ∃ d, ndarray_to_imagedatadict a = Ok d ∧
       assoc "Data" d = Some (TStruct s).
Proof.
  intros Hs H.
  apply imagedatadict_to_ndarray_steps in H
    as (im & code & entry & depth & dims & shape & Hflat & _ & _
        & _ & _ & _ & _ & _ & Hre).
  apply reshape_byteorder in Hre as Ho.
  apply reshape_Ok in Hre as (Hdt & Hdata & _).
  apply flat_data_cases in Hflat as [(arr & Harr & _)|(s' & t & Hs' & Hmap & Hbuf)].
  { rewrite Hs in Harr. done. }
  rewrite Hs in Hs'. injection Hs' as <-.
  apply nd_bytes_frombuffer in Hbuf as (Ht & Hraw & _).
  assert (nd_bytes a = raw_data s) as Hbytes.
  { rewrite <- Hraw. unfold nd_bytes. by rewrite Hdt, Hdata, Ho. }
  assert (nd_dtype a = t) as Hta by congruence.
  clear - Hbytes Hta Hmap.
  destruct s as [codes raw], a as [ta oa sa da]. cbn [typecodes raw_data nd_dtype] in *.
  subst ta raw.
  unfold structarray_to_np_map in Hmap. cbn [assoc] in Hmap.
  repeat case_decide; simplify_eq; eexists; (split; [reflexivity|]);
    reflexivity.
Qed.

(** ** More on fix_strings *)

(** X12.  [fix_strings] is idempotent: what it returns it returns
    unchanged when applied again. *)
Theorem fix_strings_idempotent (t t' : tag) :
  fix_strings t = Ok t' → fix_strings t' = Ok t'.
Proof.
  revert t'. induction t as [b|z|bits|s|a|s|l IH|d IH] using tag_ind;
    intros t' Ht; try (by injection Ht as <-).
  - simpl in Ht. destruct (utf16_decode (tostring a)); [|done].
    by injection Ht as <-.
  - rewrite fix_strings_list in Ht.
    destruct (traverse fix_strings l) as [r|] eqn:Hr; [|done].
    injection Ht as <-. rewrite fix_strings_list.
    assert (traverse fix_strings r = Ok r) as ->; [|done].
    revert r Hr. induction IH as [|x l Hx _ IHl]; intros r Hr.
    + by injection Hr as <-.
    + apply traverse_cons_Ok in Hr as (y & ys & -> & Hy & Hys).
      apply traverse_cons_Ok. exists y, ys. split_and!; [done|by apply Hx|by apply IHl].
  - rewrite fix_strings_dict in Ht.
    destruct (fix_items d) as [r|] eqn:Hr; [|done].
    injection Ht as <-. rewrite fix_strings_dict.
    assert (fix_items r = Ok r) as ->; [|done].
    revert r Hr. induction IH as [|[k x] d Hx _ IHd]; intros r Hr.
    + by injection Hr as <-.
    + simpl in Hx. apply fix_items_cons_Ok in Hr as (y & ys & -> & Hy & Hys).
      apply fix_items_cons_Ok. exists y, ys. split_and!; [done| |by apply IHd].
      destruct (decide (k = "Data")); [done|]. by apply Hx.
Qed.

Lemma fix_strings_Raise (t : tag) (e : exn) :
  fix_strings t = Raise e → e = UnicodeDecodeError.
Proof.
  induction t as [b|z|bits|s|a|s|l IH|d IH] using tag_ind; try done.
  - simpl. destruct (utf16_decode (tostring a)); [done|]. by intros [= <-].
  - rewrite fix_strings_list.
    destruct (traverse fix_strings l) as [r|e'] eqn:Hr; [done|].
    intros [= <-]. clear - IH Hr.
    induction IH as [|x l Hx _ IHl]; [done|]. simpl in Hr.
    destruct (fix_strings x) as [y|e0]; [|injection Hr as <-; by apply Hx].
    destruct (traverse fix_strings l) as [ys|e1]; [done|].
    injection Hr as <-. by apply IHl.
  - rewrite fix_strings_dict.
    destruct (fix_items d) as [r|e'] eqn:Hr; [done|].
    intros [= <-]. clear - IH Hr.
    induction IH as [|[k x] d Hx _ IHd]; [done|]. cbn [fix_items] in Hr.
    simpl in Hx. destruct (decide (k ≠ "Data")).
    + destruct (fix_strings x) as [y|e0]; [|injection Hr as <-; by apply Hx].
      destruct (fix_items d) as [ys|e1]; [done|].
      injection Hr as <-. by apply IHd.
    + destruct (fix_items d) as [ys|e1]; [done|].
      injection Hr as <-. by apply IHd.
Qed.

(** X13.  [fix_strings] raises exactly when some array outside
    ["Data"] is not UTF-16 text, and the exception is then the one of
    the decoder, whatever else the tree holds. *)
Theorem fix_strings_raises_decode_error (t : tag) :
  (∀ e, fix_strings t = Raise e → e = UnicodeDecodeError) ∧
  (fix_strings t = Raise UnicodeDecodeError ↔
   Exists (λ a, utf16_decode (tostring a) = None) (text_arrays t)).
Proof.
  split; [apply fix_strings_Raise|].
  pose proof (fix_strings_is_Ok t) as Hok.
  rewrite Exists_exists. split.
  - intros Hraise.
    destruct (decide (Forall (λ a, is_Some (utf16_decode (tostring a)))
                        (text_arrays t))) as [Hall|Hno].
    + apply Hok in Hall as [t' Ht']. by rewrite Ht' in Hraise.
    + apply not_Forall_Exists in Hno; [|apply _].
      apply Exists_exists in Hno as (a & Ha & Hnone).
      exists a. split; [done|]. simpl in Hnone.
      by destruct (utf16_decode (tostring a)) as [s|]; [destruct Hnone|].
  - intros (a & Ha & Hnone).
    destruct (fix_strings t) as [t'|e] eqn:Ht.
    + assert (is_Ok (Ok t' : result tag)) as Hr by (by eexists).
      apply Hok in Hr. rewrite Forall_forall in Hr.
      apply Hr in Ha as [s Hs]. by rewrite Hnone in Hs.
    + by rewrite (fix_strings_Raise t e Ht).
Qed.

(** X18.  A tree with no array outside ["Data"] is returned as it is. *)
Theorem fix_strings_no_arrays (t : tag) :
  text_arrays t = [] → fix_strings t = Ok t.
Proof.
  induction t as [b|z|bits|s|a|s|l IH|d IH] using tag_ind; try done.
  - cbn [text_arrays]. intros Hnil. rewrite fix_strings_list.
    assert (traverse fix_strings l = Ok l) as ->; [|done].
    induction IH as [|x l Hx _ IHl]; [done|].
    rewrite fmap_cons in Hnil. simpl in Hnil.
    apply app_eq_nil in Hnil as [Hx0 Hl0].
    apply traverse_cons_Ok. exists x, l.
    split_and!; [done|by apply Hx|by apply IHl].
  - cbn [text_arrays]. intros Hnil. rewrite fix_strings_dict.
    assert (fix_items d = Ok d) as ->; [|done].
    induction IH as [|[k x] d Hx _ IHd]; [done|].
    rewrite fmap_cons in Hnil. simpl in Hnil, Hx.
    apply app_eq_nil in Hnil as [Hx0 Hd0].
    apply fix_items_cons_Ok. exists x, d. split_and!; [done| |by apply IHd].
    destruct (decide (k = "Data")); [done|]. by apply Hx.
Qed.






(** ** More on save_image *)

Lemma reverseLookup_unsupported (t : dtype) :
  ¬ supported t → reverseLookup t = Raise StopIteration.
Proof.
  intros Hno. apply first_code_Raise, Forall_forall. intros kv Hkv Heq.
  apply Hno. unfold supported. apply list_elem_of_fmap. by exists kv.
Qed.

(** X15.  [ndarray_to_imagedatadict] returns a node exactly for the
    element types of the table.  For any other element type
    [save_image] raises StopIteration before the codec is called, and
    the file object is left as it was. *)
Theorem save_image_unsupported (a : ndarray) (cals : list Calibration)
    (intensity : option Calibration) (metadata : tag) (p : string) (fs : files) :
  (is_Ok (ndarray_to_imagedatadict a) ↔ supported (nd_dtype a)) ∧
  (¬ supported (nd_dtype a) →
   save_image a cals intensity metadata (Stream p) fs
   = (Raise StopIteration, fs)).
Proof.
  split; [split|].
  - intros [d Hd]. destruct (decide (supported (nd_dtype a))) as [|Hno]; [done|].
    unfold ndarray_to_imagedatadict in Hd.
    by rewrite (reverseLookup_unsupported _ Hno) in Hd.
  - intros Hs. destruct (ndarray_to_imagedatadict_Ok a Hs) as (code & data & Hd).
    by eexists.
  - intros Hno. unfold save_image, save_tags, ndarray_to_imagedatadict.
    by rewrite (reverseLookup_unsupported _ Hno).
Qed.

Lemma fix_items_calibration_items (cals : list Calibration) (rank : nat)
    (intensity : option Calibration) :
  fix_items (calibration_items cals rank intensity)
  = Ok (calibration_items cals rank intensity).
Proof.
  destruct intensity as [ic|]; [apply fix_items_calibrations|].
  assert (fix_strings (TList (dimension_entry <$> reverse cals))
          = Ok (TList (dimension_entry <$> reverse cals))) as Hdims.
  { rewrite fix_strings_list.
    by rewrite (traverse_fmap_Ok _ _ dimension_entry). }
  unfold calibration_items.
  destruct (negb (Nat.eqb (length cals) 0) && _); cbn [app fix_items];
    rewrite ?decide_True by done; by rewrite ?Hdims.
Qed.

(** The calibration part of the image data of a saved document. *)
Lemma fix_strings_saved (a : ndarray) (code : Z) (data : tag) (its : dict)
    (metadata metadata' : tag) :
  fix_items its = Ok its →
  fix_strings metadata = Ok metadata' →
  let extra := match its with
               | [] => []
               | it :: l => [("Calibrations", TDict (it :: l))]
               end in
  fix_strings (document (imagedata_items a code data ++ extra) metadata)
  = Ok (document (imagedata_items a code data ++ extra) metadata').
Proof.
  intros Hits Hmeta extra.
  assert (fix_items extra = Ok extra) as Hextra.
  { subst extra. destruct its as [|it its]; [done|].
    cbn [fix_items]. rewrite decide_True by done.
    by rewrite fix_strings_dict, Hits. }
  assert (fix_strings (TDict (imagedata_items a code data ++ extra))
          = Ok (TDict (imagedata_items a code data ++ extra))) as Hdata.
  { by rewrite fix_strings_dict, fix_items_app, fix_items_imagedata, Hextra. }
  unfold document. rewrite fix_strings_dict. cbn [fix_items].
  rewrite !decide_True by done.
  rewrite fix_strings_list. cbn [traverse].
  rewrite fix_strings_dict. cbn [fix_items].
  rewrite !decide_True by done. rewrite Hdata, Hmeta. done.
Qed.

(** What [load_image] finds in the [Calibrations] that [save_image]
    wrote, if it wrote any. *)
Lemma load_calibration_items (cals : list Calibration) (rank : nat)
    (intensity : option Calibration) :
  let extra := match calibration_items cals rank intensity with
               | [] => []
               | it :: l => [("Calibrations", TDict (it :: l))]
               end in
  let calibration_tags := default (TDict []) (assoc "Calibrations" extra) in
  get_default calibration_tags "Dimension" (TList [])
  = Ok (TList (if negb (Nat.eqb (length cals) 0) && Nat.eqb (length cals) rank
               then dimension_entry <$> reverse cals else [])) ∧
  get_default calibration_tags "Brightness" (TDict [])
  = Ok (match intensity with
        | Some ic => brightness_entry ic
        | None => TDict []
        end).
Proof.
  unfold calibration_items.
  destruct (negb (Nat.eqb (length cals) 0) && _), intensity as [ic|];
    split; reflexivity.
Qed.

(** What loading a saved document amounts to. *)
Lemma load_saved (a : ndarray) (cals : list Calibration)
    (intensity : option Calibration) (metadata metadata' : tag) :
  ndarray_wf a →
  supported (nd_dtype a) →
  fix_strings metadata = Ok metadata' →
  ∃ doc,
    save_tags a cals intensity metadata = Ok doc ∧
    load_tags doc
    = (properties ← imported_properties metadata';
       Ok (Loaded (as_read_back a)
             (if negb (Nat.eqb (length cals) 0)
                 && Nat.eqb (length cals) (length (nd_shape a))
              then calibration_triple <$> cals else [])
             (match intensity with
              | Some ic => calibration_triple ic
              | None => (TFloat float_zero, TFloat float_one, TStr "")
              end)
             None properties)).
Proof.
  intros Hwf Hs Hmeta.
  destruct (ndarray_to_imagedatadict_Ok a Hs) as (code & data & Hd).
  set (its := calibration_items cals (length (nd_shape a)) intensity).
  set (extra := match its with
                | [] => []
                | it :: l => [("Calibrations", TDict (it :: l))]
                end).
  destruct (imagedata_round_trip a extra Hwf Hs) as (d & Hd' & Hnone & _ & Hback).
  rewrite Hd in Hd'. injection Hd' as <-.
  exists (document (imagedata_items a code data ++ extra) metadata).
  split; [by apply save_tags_document|].
  pose proof (fix_strings_saved a code data its metadata metadata'
                (fix_items_calibration_items _ _ _) Hmeta) as Hfix.
  cbv zeta in Hfix. fold extra in Hfix.
  unfold load_tags. rewrite Hfix. cbn [mbind result_bind].
  rewrite load_fixed_document, load_entry_saved, Hback.
  cbn [mbind result_bind]. rewrite assoc_app, Hnone.
  destruct (load_calibration_items cals (length (nd_shape a)) intensity)
    as [Hdims Hbright].
  fold its extra in Hdims, Hbright. rewrite Hdims, Hbright.
  cbn [mbind result_bind iterate].
  destruct (negb (Nat.eqb (length cals) 0) && _).
  - rewrite traverse_dimension_triple. cbn [mbind result_bind].
    rewrite <- fmap_reverse, reverse_involutive.
    by destruct intensity.
  - by destruct intensity.
Qed.

(** X16.  Saving and loading again, whatever calibrations are given:
    the array comes back with its shape and with each element as it
    is read back, in the byte order of the machine, which is the
    array itself when it is in that byte order and holds no
    signalling NaN of float32; the properties come back; the axis
    calibrations come back when their number is the rank of the array
    and are lost otherwise; without an intensity calibration the load
    returns (0.0, 1.0, ""); the title is always None. *)
Theorem save_then_load (a : ndarray) (cals : list Calibration)
    (intensity : option Calibration) (metadata metadata' : tag) (props : dict) :
  ndarray_wf a →
  supported (nd_dtype a) →
  fix_strings metadata = Ok metadata' →
  imported_properties metadata' = Ok props →
  ∃ doc r,
    save_tags a cals intensity metadata = Ok doc ∧
    load_tags doc = Ok r ∧
    ld_data r = as_read_back a ∧
    (nd_byteorder a = Native → holds_signalling_nan a = false → ld_data r = a) ∧
    ld_title r = None ∧
    ld_properties r = props ∧
    (cals ≠ [] → length cals = length (nd_shape a) →
     ld_calibrations r = calibration_triple <$> cals) ∧
    (length cals ≠ length (nd_shape a) → ld_calibrations r = []) ∧
    (∀ ic, intensity = Some ic → ld_intensity r = calibration_triple ic) ∧
    (intensity = None →
     ld_intensity r = (TFloat float_zero, TFloat float_one, TStr "")).
Proof.
  intros Hwf Hs Hmeta Hprops.
  destruct (load_saved a cals intensity metadata metadata' Hwf Hs Hmeta)
    as (doc & Hdoc & Hload).
  rewrite Hprops in Hload. cbn [mbind result_bind] in Hload.
  eexists doc, _. split; [done|]. split; [exact Hload|].
  cbn [ld_data ld_title ld_properties ld_calibrations ld_intensity].
  split_and!; try done.
  - intros Ho Hnan. by apply as_read_back_exact.
  - intros Hne Hlen. by rewrite (proj2 (count_matches cals _)).
  - intros Hlen.
    destruct (negb (Nat.eqb (length cals) 0) && _) eqn:Hc; [|done].
    apply count_matches in Hc as [_ ?]. done.
  - by intros ic ->.
  - by intros ->.
Qed.

(** X17.  [save_image] takes any metadata, but [load_image] needs a
    dict: metadata that [fix_strings] turns into anything else is
    saved and then makes the load raise AttributeError. *)
Theorem save_then_load_non_dict_metadata (a : ndarray) (cals : list Calibration)
    (intensity : option Calibration) (metadata metadata' : tag) :
  ndarray_wf a →
  supported (nd_dtype a) →
  fix_strings metadata = Ok metadata' →
  (∀ d, metadata' ≠ TDict d) →
  ∃ doc,
    save_tags a cals intensity metadata = Ok doc ∧
    load_tags doc = Raise AttributeError.
Proof.
  intros Hwf Hs Hmeta Hnd.
  destruct (load_saved a cals intensity metadata metadata' Hwf Hs Hmeta)
    as (doc & Hdoc & Hload).
  exists doc. split; [done|]. rewrite Hload.
  unfold imported_properties.
  destruct metadata' as [| | | | | | |d]; try done. by destruct (Hnd d).
Qed.

(** ** More on load_image and save_image *)

(** X19.  When [Data] is neither an array nor a [structarray], [im]
    stays [None] and the conversion raises AttributeError where it
    asks for the element type, once the [DataType] code has been
    looked up. *)
Theorem imagedatadict_to_ndarray_data_kind (d : dict) (v code : tag)
    (entry : string * dtype) :
  assoc "Data" d = Some v →
  (∀ a, v ≠ TArray a) →
  (∀ s, v ≠ TStruct s) →
  assoc "DataType" d = Some code →
  dm_image_dtypes_getitem code = Ok entry →
  imagedatadict_to_ndarray (TDict d) = Raise AttributeError.
Proof.
  intros Hv Ha Hs Hcode Hentry.
  unfold imagedatadict_to_ndarray, flat_data. cbn [getitem].
  rewrite Hv, Hcode. cbn [or_raise mbind result_bind].
  destruct v as [| | | |a|s| |]; try (by rewrite Hentry).
  - by destruct (Ha a).
  - by destruct (Hs s).
Qed.

Lemma load_entry_title_eq (entry : dict) (r : loaded) :
  load_entry (TDict entry) = Ok r → ld_title r = assoc "Name" entry.
Proof.
  unfold load_entry. intros H.
  apply bind_Ok in H as (image_data & _ & H).
  apply bind_Ok in H as (data & _ & H).
  apply bind_Ok in H as (calibration_tags & _ & H).
  apply bind_Ok in H as (dimensions & _ & H).
  apply bind_Ok in H as (dimension_list & _ & H).
  apply bind_Ok in H as (calibrations & _ & H).
  apply bind_Ok in H as (brightness & _ & H).
  apply bind_Ok in H as (b_origin & _ & H).
  apply bind_Ok in H as (b_scale & _ & H).
  apply bind_Ok in H as (b_units & _ & H).
  apply bind_Ok in H as (props & _ & H).
  by injection H as <-.
Qed.

(** X20.  The title is the [Name] of the entry as [fix_strings] left
    it: the text of a [Name] stored as a UTF-16 array, a [Name] that
    is a string as it is, and None when the entry has no [Name]. *)
Theorem load_entry_title (e e' : dict) (r : loaded) :
  fix_strings (TDict e) = Ok (TDict e') →
  load_entry (TDict e') = Ok r →
  (assoc "Name" e = None → ld_title r = None) ∧
  (∀ a, assoc "Name" e = Some (TArray a) →
     ∃ s, utf16_decode (tostring a) = Some s ∧ ld_title r = Some (TStr s)) ∧
  (∀ s, assoc "Name" e = Some (TStr s) → ld_title r = Some (TStr s)).
Proof.
  rewrite fix_strings_dict. intros Hfix Hload.
  destruct (fix_items e) as [r'|] eqn:Hr; [|done]. injection Hfix as ->.
  rewrite (load_entry_title_eq _ _ Hload). split_and!.
  - intros Hnone. by apply (fix_items_assoc_None e).
  - intros a Ha. destruct (fix_items_assoc _ _ _ _ Hr Ha) as (v' & -> & Hv').
    rewrite decide_False in Hv' by done. simpl in Hv'.
    destruct (utf16_decode (tostring a)) as [s|]; [|done].
    exists s. split; [done|]. by injection Hv' as <-.
  - intros s Hs. destruct (fix_items_assoc _ _ _ _ Hr Hs) as (v' & -> & Hv').
    rewrite decide_False in Hv' by done. by injection Hv' as <-.
Qed.

End Runtime.

(** * The properties on the sample values *)

Lemma dimensions_law_witness :
  ndarray_wf swapped_array ∧ supported (nd_dtype swapped_array) ∧
  ∃ d a',
    ndarray_to_imagedatadict swapped_array = Ok d ∧
    assoc "Dimensions" d = Some (TList [TInt 3; TInt 2]) ∧
    imagedatadict_to_ndarray (TDict d) = Ok a' ∧
    nd_shape a' = [2; 3]%nat ∧
    nd_data a' = nd_data swapped_array.
Proof.
  assert (ndarray_wf swapped_array) as Hwf
    by (split; [reflexivity | repeat constructor]).
  assert (supported (nd_dtype swapped_array)) as Hs
    by (apply (bool_decide_unpack _); exact I).
  split; [exact Hwf|]. split; [exact Hs|].
  destruct (dimensions_law swapped_array Hwf Hs)
    as (d & a' & Hd & Hdims & Hback & Hshape & Hdata & _).
  exists d, a'. split; [exact Hd|]. split; [exact Hdims|].
  split; [exact Hback|]. split; [exact Hshape|]. exact Hdata.
Defined.

Lemma structured_adapter_exact_witness :
  (nd_dtype sample_complex = complex64 ∨ nd_dtype sample_complex = complex128) ∧
  ndarray_wf sample_complex ∧
  nd_byteorder sample_complex = Native ∧
  ∃ d types,
    ndarray_to_imagedatadict sample_complex = Ok d ∧
    assoc (nd_dtype sample_complex) np_to_structarray_map = Some types ∧
    assoc "Data" d = Some (TStruct (StructArray types (nd_bytes sample_complex))) ∧
    assoc types structarray_to_np_map = Some (nd_dtype sample_complex) ∧
    frombuffer (nd_bytes sample_complex) (nd_dtype sample_complex)
      = Ok (flatten sample_complex) ∧
    imagedatadict_to_ndarray (TDict d) = Ok sample_complex.
Proof.
  assert (nd_dtype sample_complex = complex64 ∨ nd_dtype sample_complex = complex128)
    as Hc by (right; reflexivity).
  assert (ndarray_wf sample_complex) as Hwf
    by (split; [reflexivity | repeat constructor]).
  split; [exact Hc|]. split; [exact Hwf|]. split; [reflexivity|].
  exact (structured_adapter_exact sample_complex Hc Hwf eq_refl).
Defined.

(** C8, as stated, fails for an array in the other byte order: the
    buffer is stored as it lies in memory and is read back in the byte
    order of the machine, so that 1.0 + 0.0j comes back with another
    real part. *)
Lemma structured_adapter_counterexample :
  nd_dtype swapped_complex = complex128 ∧
  ndarray_wf swapped_complex ∧
  ∃ d,
    ndarray_to_imagedatadict swapped_complex = Ok d ∧
    assoc "Data" d = Some (TStruct (StructArray ["d"; "d"] swapped_complex_bytes)) ∧
    imagedatadict_to_ndarray (TDict d) = Ok swapped_complex_read ∧
    swapped_complex_read ≠ swapped_complex ∧
    nd_data swapped_complex_read ≠ nd_data swapped_complex.
Proof.
  split; [reflexivity|]. split; [split; [reflexivity | repeat constructor]|].
  eexists. split; [reflexivity|]. split; [reflexivity|].
  split; [reflexivity|]. split; intros H; discriminate H.
Qed.

Lemma pixel_depth_mismatch_fails_witness :
  getitem wrong_depth_node "DataType" = Ok (TInt 1) ∧
  dm_image_dtypes_getitem (TInt 1) = Ok ("int16", int16) ∧
  getitem wrong_depth_node "PixelDepth" = Ok (TInt 4) ∧
  eq_int (TInt 4) (Z.of_nat (itemsize int16)) = false ∧
  flat_data wrong_depth_node = Ok (Some nine_array) ∧
  (∀ im, imagedatadict_to_ndarray wrong_depth_node ≠ Ok im) ∧
  imagedatadict_to_ndarray wrong_depth_node = Raise PixelDepthMismatch.
Proof.
  do 5 (split; [reflexivity|]).
  destruct (pixel_depth_mismatch_fails wrong_depth_node (TInt 1) (TInt 4)
              ("int16", int16) eq_refl eq_refl eq_refl eq_refl)
    as (Hnone & Hdepth & _).
  split; [exact Hnone|]. exact (Hdepth nine_array eq_refl eq_refl).
Defined.

(** C5, as stated, fails: both nodes declare float32 with a pixel
    depth of 8, and neither call ends in the pixel depth assertion.
    Over an array of float64 the element type assertion fails first;
    over records of two 16-bit integers the lookup of the field layout
    raises before any assertion. *)
Lemma pixel_depth_mismatch_counterexample :
  (getitem float64_as_float32_node "DataType" = Ok (TInt 2) ∧
   dm_image_dtypes_getitem (TInt 2) = Ok ("float32", float32) ∧
   getitem float64_as_float32_node "PixelDepth" = Ok (TInt 8) ∧
   eq_int (TInt 8) (Z.of_nat (itemsize float32)) = false ∧
   imagedatadict_to_ndarray float64_as_float32_node = Raise TypeMismatch ∧
   imagedatadict_to_ndarray float64_as_float32_node ≠ Raise PixelDepthMismatch) ∧
  (getitem short_pairs_node "DataType" = Ok (TInt 2) ∧
   getitem short_pairs_node "PixelDepth" = Ok (TInt 8) ∧
   imagedatadict_to_ndarray short_pairs_node = Raise KeyError ∧
   imagedatadict_to_ndarray short_pairs_node ≠ Raise PixelDepthMismatch).
Proof. repeat split; (reflexivity || discriminate). Qed.

Lemma fix_strings_normalizes_witness :
  Forall (λ a, is_Some (ascii_utf16_decode (tostring a))) (text_arrays sample_tree) ∧
  ∃ t', fix_strings ascii_utf16_decode sample_tree = Ok t' ∧
    ∀ p x, data_free p → subtree p sample_tree = Some x →
      (∃ y, subtree p t' = Some y ∧ node_fixed ascii_utf16_decode x y) ∧
      (∀ v, subtree [Key "Data"] x = Some v →
            subtree (p ++ [Key "Data"]) t' = Some v).
Proof.
  assert (Forall (λ a, is_Some (ascii_utf16_decode (tostring a)))
            (text_arrays sample_tree)) as Hdec
    by (repeat constructor; exists "nm"; reflexivity).
  split; [exact Hdec|].
  exact (fix_strings_normalizes ascii_utf16_decode sample_tree Hdec).
Defined.

Lemma legacy_voltage_keys_witness :
  load_entry exact_float_of_int float_of_no_str (TDict zero_eht_entry)
    = Ok zero_eht_loaded ∧
  eht zero_eht_entry = Some (TInt 0) ∧
  ld_properties zero_eht_loaded
    = [("imported_properties", TDict [("ImageScanned", TDict [("EHT", TInt 0)])])] ∧
  ¬ is_Some (assoc "autostem" (ld_properties zero_eht_loaded)) ∧
  ¬ is_Some (assoc "extra_high_tension" (ld_properties zero_eht_loaded)).
Proof.
  assert (load_entry exact_float_of_int float_of_no_str (TDict zero_eht_entry)
          = Ok zero_eht_loaded) as Hload by reflexivity.
  destruct (legacy_voltage_keys exact_float_of_int float_of_no_str
              zero_eht_entry zero_eht_loaded Hload)
    as (_ & Hauto & Hextra & _ & Hzero).
  split; [exact Hload|]. split; [reflexivity|].
  split; [exact (Hzero (TInt 0) _ eq_refl eq_refl eq_refl)|].
  split.
  - intros H. apply Hauto in H as (v & Hv & Ht).
    injection Hv as <-. discriminate Ht.
  - intros H. apply Hextra in H as (v & Hv & Ht).
    injection Hv as <-. discriminate Ht.
Defined.

Lemma load_image_selects_last_witness :
  traverse (fix_strings ascii_utf16_decode) [thumbnail_entry] = Ok [fixed_thumbnail] ∧
  sample_files !! "image.dm3" = Some (Some two_image_document) ∧
  fix_strings ascii_utf16_decode full_entry = Ok full_entry ∧
  load_entry exact_float_of_int float_of_no_str full_entry = Ok zero_eht_loaded ∧
  load_entry exact_float_of_int float_of_no_str fixed_thumbnail
    = Ok thumbnail_loaded ∧
  load_image ascii_utf16_decode exact_float_of_int float_of_no_str
      (option tag) tree_read (Stream "image.dm3") sample_files
    = Ok zero_eht_loaded ∧
  load_image ascii_utf16_decode exact_float_of_int float_of_no_str
      (option tag) tree_read (Stream "image.dm3") sample_files
    = load_tags ascii_utf16_decode exact_float_of_int float_of_no_str
        (TDict [("ImageList", TList [full_entry]); ("InImageMode", TInt 1)]).
Proof.
  assert (traverse (fix_strings ascii_utf16_decode) [thumbnail_entry]
          = Ok [fixed_thumbnail]) as Hpre by reflexivity.
  assert (sample_files !! "image.dm3" = Some (Some two_image_document)) as Hfs
    by reflexivity.
  assert (is_Ok (fix_strings ascii_utf16_decode (TDict []))) as Hbefore
    by (eexists; reflexivity).
  assert (is_Ok (fix_strings ascii_utf16_decode (TDict [("InImageMode", TInt 1)])))
    as Hafter by (eexists; reflexivity).
  destruct (load_image_selects_last ascii_utf16_decode exact_float_of_int
              float_of_no_str (option tag) tree_read sample_files "image.dm3"
              (Some two_image_document) [] [("InImageMode", TInt 1)]
              [thumbnail_entry] [fixed_thumbnail] full_entry
              eq_refl Hpre Hfs eq_refl) as (Hsame & _ & _ & Hfrom).
  split; [exact Hpre|]. split; [exact Hfs|]. do 3 (split; [reflexivity|]).
  split; [|exact Hsame].
  exact (Hfrom full_entry zero_eht_loaded Hbefore Hafter eq_refl eq_refl).
Defined.

Lemma calibration_count_policy_witness :
  supported (nd_dtype sample_array) ∧
  ∃ doc,
    save_tags sample_array [sample_intensity] None sample_metadata = Ok doc ∧
    (∀ w, tree_write doc = Ok w →
          save_image (option tag) None tree_write tree_partial sample_array
            [sample_intensity] None sample_metadata (Stream "image.dm3") ∅
          = (Ok (), <["image.dm3" := w]> ∅)) ∧
    ([sample_intensity] = [] ∨ 1%nat ≠ 2%nat → dimension_entries doc = None) ∧
    ([sample_intensity] ≠ [] → 1%nat = 2%nat →
     dimension_entries doc
     = Some (TList (dimension_entry <$> reverse [sample_intensity]))).
Proof.
  assert (supported (nd_dtype sample_array)) as Hs
    by (apply (bool_decide_unpack _); exact I).
  split; [exact Hs|].
  exact (calibration_count_policy (option tag) None tree_write tree_partial
           sample_array [sample_intensity] None sample_metadata "image.dm3" ∅ Hs).
Defined.

Lemma save_load_round_trip_witness :
  ndarray_wf sample_array ∧
  supported (nd_dtype sample_array) ∧
  nd_byteorder sample_array = Native ∧
  holds_signalling_nan sample_array = false ∧
  length sample_calibrations = length (nd_shape sample_array) ∧
  fix_strings ascii_utf16_decode sample_metadata = Ok sample_metadata ∧
  imported_properties exact_float_of_int float_of_no_str sample_metadata
    = Ok sample_properties ∧
  ∃ fs',
    save_image (option tag) None tree_write tree_partial sample_array
      sample_calibrations (Some sample_intensity) sample_metadata
      (Stream "image.dm3") ∅
    = (Ok (), fs') ∧
    load_image ascii_utf16_decode exact_float_of_int float_of_no_str
      (option tag) tree_read (Stream "image.dm3") fs'
    = Ok (Loaded sample_array (calibration_triple <$> sample_calibrations)
            (calibration_triple sample_intensity) None sample_properties).
Proof.
  assert (ndarray_wf sample_array) as Hwf
    by (split; [reflexivity | repeat constructor]).
  assert (supported (nd_dtype sample_array)) as Hs
    by (apply (bool_decide_unpack _); exact I).
  do 7 (split; [first [exact Hwf | exact Hs | reflexivity]|]).
  apply (save_load_round_trip ascii_utf16_decode exact_float_of_int
           float_of_no_str (option tag) None tree_read tree_write tree_partial
           sample_array sample_calibrations sample_intensity
           sample_metadata sample_metadata sample_properties "image.dm3" ∅
           Hwf Hs eq_refl eq_refl eq_refl eq_refl eq_refl).
  intros doc Hdoc. exists (Some doc). split; reflexivity.
Defined.

(** C1, as stated, fails on two kinds of array.  A float32 array with
    a signalling NaN comes back with a quiet one, since its elements
    go through Python floats on their way into [array.array]; an
    array in the other byte order comes back in the byte order of the
    machine, which is another dtype.  Both arrays are of a supported
    element type, with one calibration per axis, and the codec is
    one that reads back the document it wrote. *)
Lemma save_load_round_trip_counterexample :
  (ndarray_wf signalling_array ∧
   supported (nd_dtype signalling_array) ∧
   length one_calibration = length (nd_shape signalling_array) ∧
   ∃ fs',
     save_image (option tag) None tree_write tree_partial signalling_array
       one_calibration (Some sample_intensity) sample_metadata
       (Stream "image.dm3") ∅
     = (Ok (), fs') ∧
     load_image ascii_utf16_decode exact_float_of_int float_of_no_str
       (option tag) tree_read (Stream "image.dm3") fs'
     = Ok (Loaded quiet_array (calibration_triple <$> one_calibration)
             (calibration_triple sample_intensity) None sample_properties) ∧
     nd_data quiet_array ≠ nd_data signalling_array) ∧
  (ndarray_wf swapped_array ∧
   supported (nd_dtype swapped_array) ∧
   length sample_calibrations = length (nd_shape swapped_array) ∧
   ∃ fs',
     save_image (option tag) None tree_write tree_partial swapped_array
       sample_calibrations (Some sample_intensity) sample_metadata
       (Stream "image.dm3") ∅
     = (Ok (), fs') ∧
     load_image ascii_utf16_decode exact_float_of_int float_of_no_str
       (option tag) tree_read (Stream "image.dm3") fs'
     = Ok (Loaded sample_array (calibration_triple <$> sample_calibrations)
             (calibration_triple sample_intensity) None sample_properties) ∧
     sample_array ≠ swapped_array).
Proof.
  split.
  - split; [split; [reflexivity | repeat constructor]|].
    split; [apply (bool_decide_unpack _); exact I|]. split; [reflexivity|].
    eexists. split; [reflexivity|]. split; [reflexivity|].
    intros H. discriminate H.
  - split; [split; [reflexivity | repeat constructor]|].
    split; [apply (bool_decide_unpack _); exact I|]. split; [reflexivity|].
    eexists. split; [reflexivity|]. split; [reflexivity|].
    intros H. discriminate H.
Qed.

(** * The further properties on the sample values *)

Lemma load_entry_no_calibrations_witness :
  load_entry exact_float_of_int float_of_no_str (TDict zero_eht_entry)
    = Ok zero_eht_loaded ∧
  assoc "ImageData" zero_eht_entry = Some (TDict nine_items) ∧
  assoc "Calibrations" nine_items = None ∧
  ld_calibrations zero_eht_loaded = [] ∧
  ld_intensity zero_eht_loaded = (TFloat float_zero, TFloat float_one, TStr "").
Proof.
  do 3 (split; [reflexivity|]).
  exact (load_entry_no_calibrations exact_float_of_int float_of_no_str
           zero_eht_entry nine_items zero_eht_loaded eq_refl eq_refl eq_refl).
Defined.

Lemma load_entry_brightness_defaults_witness :
  load_entry exact_float_of_int float_of_no_str (TDict calibrated_entry)
    = Ok calibrated_loaded ∧
  assoc "ImageData" calibrated_entry = Some (TDict calibrated_data) ∧
  assoc "Calibrations" calibrated_data = Some (TDict calibrated_items) ∧
  assoc "Brightness" calibrated_items = Some (TDict scale_only) ∧
  ld_intensity calibrated_loaded
  = (TFloat float_zero, TFloat 4611686018427387904, TStr "").
Proof.
  do 4 (split; [reflexivity|]).
  exact (load_entry_brightness_defaults exact_float_of_int float_of_no_str
           calibrated_entry calibrated_data calibrated_items scale_only
           calibrated_loaded eq_refl eq_refl eq_refl eq_refl).
Defined.

Lemma load_entry_calibrations_reversed_witness :
  load_entry exact_float_of_int float_of_no_str (TDict calibrated_entry)
    = Ok calibrated_loaded ∧
  assoc "Dimension" calibrated_items = Some (TList [TDict x_axis; TDict y_axis]) ∧
  length (ld_calibrations calibrated_loaded) = 2%nat ∧
  ∀ i x, [TDict x_axis; TDict y_axis] !! i = Some x →
    ∃ o s un,
      getitem x "Origin" = Ok o ∧ getitem x "Scale" = Ok s ∧
      getitem x "Units" = Ok un ∧
      ld_calibrations calibrated_loaded !! (2 - 1 - i)%nat = Some (o, s, un).
Proof.
  do 2 (split; [reflexivity|]).
  exact (load_entry_calibrations_reversed exact_float_of_int float_of_no_str
           calibrated_entry calibrated_data calibrated_items
           [TDict x_axis; TDict y_axis] calibrated_loaded
           eq_refl eq_refl eq_refl eq_refl).
Defined.

Lemma load_entry_dimension_incomplete_witness :
  imagedatadict_to_ndarray (TDict incomplete_data)
    = Ok (NdArray int16 Native [1; 1]%nat [SInt 9]) ∧
  assoc "Dimension" incomplete_items
    = Some (TList ([TDict x_axis] ++ TDict unitless_axis :: [])) ∧
  assoc "Units" unitless_axis = None ∧
  load_entry exact_float_of_int float_of_no_str (TDict incomplete_entry)
    = Raise KeyError.
Proof.
  do 3 (split; [reflexivity|]).
  apply (load_entry_dimension_incomplete exact_float_of_int float_of_no_str
           incomplete_entry incomplete_data incomplete_items unitless_axis
           [TDict x_axis] [] (NdArray int16 Native [1; 1]%nat [SInt 9])
           eq_refl eq_refl eq_refl eq_refl).
  - eexists. reflexivity.
  - right. right. reflexivity.
Defined.

Lemma load_tags_no_image_witness :
  is_Ok (fix_strings ascii_utf16_decode (TDict no_image_list)) ∧
  is_Ok (fix_strings ascii_utf16_decode (TDict empty_image_list)) ∧
  load_tags ascii_utf16_decode exact_float_of_int float_of_no_str
    (TDict no_image_list) = Raise KeyError ∧
  load_tags ascii_utf16_decode exact_float_of_int float_of_no_str
    (TDict empty_image_list) = Raise IndexError.
Proof.
  assert (is_Ok (fix_strings ascii_utf16_decode (TDict no_image_list))) as H1
    by (eexists; reflexivity).
  assert (is_Ok (fix_strings ascii_utf16_decode (TDict empty_image_list))) as H2
    by (eexists; reflexivity).
  split; [exact H1|]. split; [exact H2|]. split.
  - exact (proj1 (load_tags_no_image ascii_utf16_decode exact_float_of_int
                    float_of_no_str no_image_list H1) eq_refl).
  - exact (proj2 (load_tags_no_image ascii_utf16_decode exact_float_of_int
                    float_of_no_str empty_image_list H2) eq_refl).
Defined.

Lemma imagedatadict_to_ndarray_consistent_result_witness :
  imagedatadict_to_ndarray (image_data_node 9) = Ok nine_array ∧
  length (nd_data nine_array) = shape_size (nd_shape nine_array) ∧
  supported (nd_dtype nine_array) ∧
  ∃ code name depth,
    getitem (image_data_node 9) "DataType" = Ok code ∧
    dm_image_dtypes_getitem code = Ok (name, nd_dtype nine_array) ∧
    getitem (image_data_node 9) "PixelDepth" = Ok depth ∧
    eq_int depth (Z.of_nat (itemsize (nd_dtype nine_array))) = true.
Proof.
  split; [reflexivity|].
  exact (imagedatadict_to_ndarray_consistent_result (image_data_node 9)
           nine_array eq_refl).
Defined.

Lemma imagedatadict_to_ndarray_unknown_code_witness :
  is_Ok (flat_data unknown_code_node) ∧
  getitem unknown_code_node "DataType" = Ok (TInt 8) ∧
  assoc 8 dm_image_dtypes = None ∧
  imagedatadict_to_ndarray unknown_code_node = Raise KeyError.
Proof.
  assert (is_Ok (flat_data unknown_code_node)) as Hflat
    by (eexists; reflexivity).
  split; [exact Hflat|]. do 2 (split; [reflexivity|]).
  exact (imagedatadict_to_ndarray_unknown_code unknown_code_node (TInt 8) 8
           Hflat eq_refl eq_refl eq_refl).
Defined.

Lemma imagedatadict_to_ndarray_shape_mismatch_witness :
  flat_data (TDict wrong_shape_items) = Ok (Some nine_array) ∧
  assoc "Dimensions" wrong_shape_items = Some (TList [TInt 2]) ∧
  reversed_extents (TList [TInt 2]) = Ok [2] ∧
  foldr Z.mul 1 [2] ≠ Z.of_nat (length (nd_data nine_array)) ∧
  imagedatadict_to_ndarray (TDict wrong_shape_items) = Raise ValueError.
Proof.
  assert (Forall (λ n, 0 ≤ n) [2]) as Hpos by (repeat constructor; lia).
  assert (foldr Z.mul 1 [2] ≠ Z.of_nat (length (nd_data nine_array))) as Hne
    by (intros H; discriminate H).
  do 3 (split; [reflexivity|]). split; [exact Hne|].
  exact (imagedatadict_to_ndarray_shape_mismatch wrong_shape_items nine_array
           (TInt 1) (TInt 2) (TList [TInt 2]) ("int16", int16) [2]
           eq_refl eq_refl eq_refl eq_refl eq_refl eq_refl eq_refl eq_refl
           Hpos Hne).
Defined.

Lemma imagedatadict_to_ndarray_alias_witness :
  assoc 6 dm_image_dtypes = Some ("uint8", int8) ∧
  assoc 9 dm_image_dtypes = Some ("int8", int8) ∧
  imagedatadict_to_ndarray (TDict (dict_set "DataType" (TInt 6) bool_items))
    = Ok (NdArray int8 Native [1%nat] [SInt 1]) ∧
  imagedatadict_to_ndarray (TDict (dict_set "DataType" (TInt 6) bool_items))
  = imagedatadict_to_ndarray (TDict (dict_set "DataType" (TInt 9) bool_items)).
Proof.
  do 3 (split; [reflexivity|]).
  exact (imagedatadict_to_ndarray_alias bool_items 6 9 "uint8" "int8" int8
           eq_refl eq_refl).
Defined.

Lemma load_save_load_witness :
  imagedatadict_to_ndarray
    (TDict [("DataType", TInt 2); ("PixelDepth", TInt 4);
            ("Dimensions", TList [TInt 1]);
            ("Data", TArray (PyArray "f" [SFloat 2139095041]))])
    = Ok signalling_array ∧
  (∃ d, ndarray_to_imagedatadict signalling_array = Ok d ∧
        imagedatadict_to_ndarray (TDict d) = Ok quiet_array) ∧
  imagedatadict_to_ndarray unit_complex_node = Ok unit_complex_array ∧
  ∃ d, ndarray_to_imagedatadict unit_complex_array = Ok d ∧
       imagedatadict_to_ndarray (TDict d) = Ok unit_complex_array.
Proof.
  split; [reflexivity|]. split.
  - destruct (load_save_load _ signalling_array
                (eq_refl : imagedatadict_to_ndarray
                   (TDict [("DataType", TInt 2); ("PixelDepth", TInt 4);
                           ("Dimensions", TList [TInt 1]);
                           ("Data", TArray (PyArray "f" [SFloat 2139095041]))])
                   = Ok signalling_array))
      as (d & Hd & Hback & _).
    exists d. split; [exact Hd | exact Hback].
  - split; [reflexivity|].
    destruct (load_save_load unit_complex_node unit_complex_array eq_refl)
      as (d & Hd & _ & Hsame).
    exists d. split; [exact Hd | exact (Hsame eq_refl)].
Defined.

Lemma load_save_keeps_raw_data_witness :
  getitem unit_complex_node "Data" = Ok (TStruct unit_complex_data) ∧
  imagedatadict_to_ndarray unit_complex_node = Ok unit_complex_array ∧
  ∃ d, ndarray_to_imagedatadict unit_complex_array = Ok d ∧
       assoc "Data" d = Some (TStruct unit_complex_data).
Proof.
  do 2 (split; [reflexivity|]).
  exact (load_save_keeps_raw_data unit_complex_node unit_complex_data
           unit_complex_array eq_refl eq_refl).
Defined.

Lemma fix_strings_idempotent_witness :
  fix_strings ascii_utf16_decode sample_tree = Ok fixed_sample_tree ∧
  fix_strings ascii_utf16_decode fixed_sample_tree = Ok fixed_sample_tree.
Proof.
  split; [reflexivity|].
  exact (fix_strings_idempotent ascii_utf16_decode sample_tree
           fixed_sample_tree eq_refl).
Defined.

Lemma fix_strings_raises_decode_error_witness :
  ascii_utf16_decode (tostring odd_text) = None ∧
  fix_strings ascii_utf16_decode odd_tree = Raise UnicodeDecodeError.
Proof.
  split; [reflexivity|].
  apply (proj2 (fix_strings_raises_decode_error ascii_utf16_decode odd_tree)).
  apply Exists_cons_hd. reflexivity.
Defined.


Lemma save_image_unsupported_witness :
  ¬ supported (nd_dtype long_array) ∧
  ¬ is_Ok (ndarray_to_imagedatadict long_array) ∧
  save_image (option tag) None tree_write tree_partial long_array [] None
    sample_metadata (Stream "image.dm3") ∅
  = (Raise StopIteration, ∅).
Proof.
  assert (¬ supported (nd_dtype long_array)) as Hno
    by (apply (bool_decide_unpack _); exact I).
  destruct (save_image_unsupported (option tag) None tree_write tree_partial
              long_array [] None sample_metadata "image.dm3" ∅) as [Hiff Hraise].
  split; [exact Hno|]. split.
  - intros Hok. apply Hno, Hiff, Hok.
  - exact (Hraise Hno).
Defined.

Lemma save_then_load_witness :
  ndarray_wf swapped_array ∧
  supported (nd_dtype swapped_array) ∧
  fix_strings ascii_utf16_decode sample_metadata = Ok sample_metadata ∧
  imported_properties exact_float_of_int float_of_no_str sample_metadata
    = Ok sample_properties ∧
  ∃ doc r,
    save_tags swapped_array [sample_intensity] None sample_metadata = Ok doc ∧
    load_tags ascii_utf16_decode exact_float_of_int float_of_no_str doc = Ok r ∧
    ld_data r = sample_array ∧
    ld_title r = None ∧
    ld_properties r = sample_properties ∧
    ld_calibrations r = [] ∧
    ld_intensity r = (TFloat float_zero, TFloat float_one, TStr "").
Proof.
  assert (ndarray_wf swapped_array) as Hwf
    by (split; [reflexivity | repeat constructor]).
  assert (supported (nd_dtype swapped_array)) as Hs
    by (apply (bool_decide_unpack _); exact I).
  do 4 (split; [first [exact Hwf | exact Hs | reflexivity]|]).
  destruct (save_then_load ascii_utf16_decode exact_float_of_int float_of_no_str
              swapped_array [sample_intensity] None sample_metadata
              sample_metadata sample_properties Hwf Hs eq_refl eq_refl)
    as (doc & r & Hdoc & Hload & Hdata & _ & Htitle & Hprops & _ & Hlost & _
        & Hnone).
  exists doc, r. do 2 (split; [assumption|]).
  split; [exact Hdata|]. do 2 (split; [assumption|]). split.
  - apply Hlost. intros H. discriminate H.
  - exact (Hnone eq_refl).
Defined.

Lemma save_then_load_non_dict_metadata_witness :
  ndarray_wf sample_array ∧
  supported (nd_dtype sample_array) ∧
  fix_strings ascii_utf16_decode (TList []) = Ok (TList []) ∧
  ∃ doc,
    save_tags sample_array sample_calibrations (Some sample_intensity) (TList [])
      = Ok doc ∧
    load_tags ascii_utf16_decode exact_float_of_int float_of_no_str doc
      = Raise AttributeError.
Proof.
  assert (ndarray_wf sample_array) as Hwf
    by (split; [reflexivity | repeat constructor]).
  assert (supported (nd_dtype sample_array)) as Hs
    by (apply (bool_decide_unpack _); exact I).
  do 3 (split; [first [exact Hwf | exact Hs | reflexivity]|]).
  apply (save_then_load_non_dict_metadata ascii_utf16_decode exact_float_of_int
           float_of_no_str sample_array sample_calibrations
           (Some sample_intensity) (TList []) (TList []) Hwf Hs eq_refl).
  intros d H. discriminate H.
Defined.

Lemma fix_strings_no_arrays_witness :
  text_arrays sample_metadata = [] ∧
  fix_strings ascii_utf16_decode sample_metadata = Ok sample_metadata.
Proof.
  split; [reflexivity|].
  exact (fix_strings_no_arrays ascii_utf16_decode sample_metadata eq_refl).
Defined.

Lemma imagedatadict_to_ndarray_data_kind_witness :
  assoc "Data" text_data_items = Some (TStr "nm") ∧
  assoc "DataType" text_data_items = Some (TInt 1) ∧
  dm_image_dtypes_getitem (TInt 1) = Ok ("int16", int16) ∧
  imagedatadict_to_ndarray (TDict text_data_items) = Raise AttributeError.
Proof.
  do 3 (split; [reflexivity|]).
  apply (imagedatadict_to_ndarray_data_kind text_data_items (TStr "nm") (TInt 1)
           ("int16", int16) eq_refl).
  - intros a H. discriminate H.
  - intros s H. discriminate H.
  - reflexivity.
  - reflexivity.
Defined.

Lemma load_entry_title_witness :
  fix_strings ascii_utf16_decode (TDict thumbnail_items)
    = Ok (TDict fixed_thumbnail_items) ∧
  load_entry exact_float_of_int float_of_no_str (TDict fixed_thumbnail_items)
    = Ok thumbnail_loaded ∧
  assoc "Name" thumbnail_items = Some (TArray sample_text) ∧
  ∃ s, ascii_utf16_decode (tostring sample_text) = Some s ∧
       ld_title thumbnail_loaded = Some (TStr s).
Proof.
  do 3 (split; [reflexivity|]).
  destruct (load_entry_title ascii_utf16_decode exact_float_of_int
              float_of_no_str thumbnail_items fixed_thumbnail_items
              thumbnail_loaded eq_refl eq_refl) as (_ & Harray & _).
  exact (Harray sample_text eq_refl).
Defined.
